(** * scad_tool: camera shots, labels and flag probing of the OpenSCAD helper

    A shallow embedding of [scripts/scad_tool.py].  Python [str] values are
    [string]s, Python [int]s are [Z], and Python [float]s are IEEE binary64
    values in the executable specification format of [SpecFloat]
    ([spec_float] with precision 53 and maximal exponent 1024), so that
    products, sums, signed zeros, infinities and the exact value that the
    [f"{v:.3f}"] conversions round are the ones CPython computes. *)

From Stdlib Require Import ZArith List Bool Ascii String Lia.
From Stdlib Require Import Floats.SpecFloat.
From Stdlib Require Import Numbers.DecimalString Numbers.DecimalFacts
  Numbers.DecimalPos Numbers.DecimalN.
Import ListNotations.

Local Open Scope string_scope.
Local Open Scope Z_scope.

(** ** Python string operations used by the script *)

(** [c in chars] for a one-character [c]. *)
Fixpoint char_in (c : ascii) (chars : string) : bool :=
  match chars with
  | EmptyString => false
  | String d rest => Ascii.eqb c d || char_in c rest
  end.

(** [str.rstrip(chars)]: drop the longest suffix made of characters of
    [chars]. *)
Fixpoint drop_while (p : ascii -> bool) (l : list ascii) : list ascii :=
  match l with
  | [] => []
  | c :: rest => if p c then drop_while p rest else l
  end.

Definition rstrip_list (chars : string) (l : list ascii) : list ascii :=
  rev (drop_while (fun c => char_in c chars) (rev l)).

Definition rstrip (chars : string) (s : string) : string :=
  string_of_list_ascii (rstrip_list chars (list_ascii_of_string s)).

(** [str.replace(a, b)] for one-character [a] and [b]. *)
Fixpoint replace_char (a b : ascii) (s : string) : string :=
  match s with
  | EmptyString => EmptyString
  | String c rest =>
      String (if Ascii.eqb c a then b else c) (replace_char a b rest)
  end.

(** [str.isspace] on code points below 256. *)
Definition is_space (c : ascii) : bool :=
  let n := N_of_ascii c in
  (((9 <=? n) && (n <=? 13)) || ((28 <=? n) && (n <=? 32))
   || (n =? 133) || (n =? 160))%N.

(** [str.strip()]. *)
Definition strip (s : string) : string :=
  string_of_list_ascii
    (rev (drop_while is_space
            (rev (drop_while is_space (list_ascii_of_string s))))).

(** [s.split(sep)] for a one-character separator: every occurrence of
    [sep] cuts, so the result has one more field than [s] has separators. *)
Fixpoint split_on (sep : ascii) (s : string) : list string :=
  match s with
  | EmptyString => [EmptyString]
  | String c rest =>
      if Ascii.eqb c sep then EmptyString :: split_on sep rest
      else match split_on sep rest with
           | [] => [String c EmptyString]
           | field :: fields => String c field :: fields
           end
  end.

(** [s.split(sep, 1)] when [sep in s]: the text before the first [sep] and
    everything after it; [None] when [sep] does not occur. *)
Fixpoint split_once (sep : ascii) (s : string) : option (string * string) :=
  match s with
  | EmptyString => None
  | String c rest =>
      if Ascii.eqb c sep then Some (EmptyString, rest)
      else match split_once sep rest with
           | Some (a, b) => Some (String c a, b)
           | None => None
           end
  end.

(** [sep.join(parts)]. *)
Fixpoint join (sep : string) (parts : list string) : string :=
  match parts with
  | [] => EmptyString
  | [p] => p
  | p :: rest => p ++ sep ++ join sep rest
  end.

(** [needle in hay] for strings: [needle] occurs as a contiguous block. *)
Fixpoint str_in (needle hay : string) : bool :=
  String.prefix needle hay
  || match hay with
     | EmptyString => false
     | String _ rest => str_in needle rest
     end.

(** Truth value of an optional string option ([None] and [""] are false). *)
Definition truthy_str (o : option string) : bool :=
  match o with
  | Some s => negb (String.eqb s EmptyString)
  | None => false
  end.

(** ** Python floats *)

Definition float : Type := spec_float.

Definition prec : Z := 53.
Definition emax : Z := 1024.

Definition fmul : float -> float -> float := SFmul prec emax.
Definition fadd : float -> float -> float := SFadd prec emax.
Definition fdiv : float -> float -> float := SFdiv prec emax.
Definition fabs : float -> float := SFabs.
Definition fltb : float -> float -> bool := SFltb.

(** Conversion of a Python [int] to [float] (round to nearest even). *)
Definition float_of_Z (z : Z) : float := binary_normalize prec emax z 0 false.

(** The float closest to [n / 10^k]: the value of a decimal literal with
    [k] digits after the point. *)
Definition float_of_decimal (n : Z) (k : nat) : float :=
  fdiv (float_of_Z n) (float_of_Z (10 ^ Z.of_nat k)).

Definition fzero : float := S754_zero false.

Definition is_finite (v : float) : bool :=
  match v with
  | S754_zero _ | S754_finite _ _ _ => true
  | _ => false
  end.

(** *** Fixed-point formatting, [f"{v:.{prec}f}"] *)

(** [a / b] rounded to the nearest integer, ties to even ([0 <= a], [0 < b]). *)
Definition round_half_even_div (a b : Z) : Z :=
  let q := a / b in
  let r := a mod b in
  match 2 * r ?= b with
  | Lt => q
  | Gt => q + 1
  | Eq => if Z.even q then q else q + 1
  end.

(** The exact value [m * 2^e], scaled by [10^digits] and rounded to an
    integer, ties to even. *)
Definition scaled_round (digits : nat) (m : positive) (e : Z) : Z :=
  let n := Zpos m * 10 ^ Z.of_nat digits in
  if 0 <=? e then n * 2 ^ e else round_half_even_div n (2 ^ (- e)).

Definition digits_table : list ascii :=
  ["0"; "1"; "2"; "3"; "4"; "5"; "6"; "7"; "8"; "9"]%char.

Definition digit_char (d : Z) : ascii := nth (Z.to_nat d) digits_table "0"%char.

(** Decimal numeral of a natural number given as [Z], without leading
    zeros ("0" for zero). *)
Definition dec_string (n : Z) : string :=
  NilEmpty.string_of_uint (N.to_uint (Z.to_N n)).

(** The [digits] decimal digits of [r], most significant first, padded
    with zeros on the left. *)
Fixpoint frac_digits (digits : nat) (r : Z) : string :=
  match digits with
  | O => EmptyString
  | S k => String (digit_char ((r / 10 ^ Z.of_nat k) mod 10)) (frac_digits k r)
  end.

(** The scaled integer [n] written with [digits] digits after the point. *)
Definition fixed_digits (digits : nat) (n : Z) : string :=
  let p := 10 ^ Z.of_nat digits in
  dec_string (n / p)
  ++ match digits with
     | O => EmptyString
     | S _ => "." ++ frac_digits digits (n mod p)
     end.

Definition sign_string (s : bool) : string := if s then "-" else "".

Definition format_fixed (digits : nat) (v : float) : string :=
  match v with
  | S754_nan => "nan"
  | S754_infinity s => sign_string s ++ "inf"
  | S754_zero s => sign_string s ++ fixed_digits digits 0
  | S754_finite s m e => sign_string s ++ fixed_digits digits (scaled_round digits m e)
  end.

(** ** [label_from_value] *)

Definition label_from_value (value : float) : string :=
  let sign := if fltb value fzero then "m" else "" in
  let val := fabs value in
  let text := rstrip "." (rstrip "0" (format_fixed 1 val)) in
  let text := if String.eqb text "" then "0" else text in
  sign ++ replace_char "."%char "p"%char text.

(** ** Fixed tables *)

(** A camera directive: a label and the text handed to [--camera=]. *)
Definition shot : Type := (string * string)%type.

(** Python dictionaries with string keys, in insertion order. *)
Fixpoint dict_get {V : Type} (d : list (string * V)) (key : string) : option V :=
  match d with
  | [] => None
  | (k, v) :: rest => if String.eqb k key then Some v else dict_get rest key
  end.

Definition dict_keys {V : Type} (d : list (string * V)) : list string :=
  map fst d.

Definition PRESETS : list (string * list shot) :=
  [ ("single", [("iso", "0,0,0,55,0,25,0")]);
    ("iso",
      [ ("iso_ne", "0,0,0,55,0,45,0");
        ("iso_nw", "0,0,0,55,0,135,0");
        ("iso_sw", "0,0,0,55,0,225,0");
        ("iso_se", "0,0,0,55,0,315,0") ]);
    ("ortho",
      [ ("front", "0,0,0,90,0,0,0");
        ("back", "0,0,0,90,0,180,0");
        ("left", "0,0,0,90,0,270,0");
        ("right", "0,0,0,90,0,90,0");
        ("top", "0,0,0,0,0,0,0");
        ("bottom", "0,0,0,180,0,0,0") ]);
    ("standard",
      [ ("front", "0,0,0,90,0,0,0");
        ("back", "0,0,0,90,0,180,0");
        ("left", "0,0,0,90,0,270,0");
        ("right", "0,0,0,90,0,90,0");
        ("top", "0,0,0,0,0,0,0");
        ("bottom", "0,0,0,180,0,0,0");
        ("iso", "0,0,0,55,0,25,0") ]) ].

Definition vec3 : Type := (float * float * float)%type.

Definition f_one : float := Eval vm_compute in float_of_Z 1.
Definition f_minus_one : float := Eval vm_compute in float_of_Z (-1).

Definition VIEW_DIRECTIONS : list (string * vec3) :=
  [ ("iso", (f_one, f_one, f_one));
    ("front", (fzero, f_minus_one, fzero));
    ("back", (fzero, f_one, fzero));
    ("left", (f_minus_one, fzero, fzero));
    ("right", (f_one, fzero, fzero));
    ("top", (fzero, fzero, f_one));
    ("bottom", (fzero, fzero, f_minus_one)) ].

(** ** Capability probing *)

Definition known_flags : list string :=
  [ "--render"; "--backend"; "--camera"; "--imgsize";
    "--viewall"; "--autocenter"; "--projection";
    "--view"; "--colorscheme" ].

Definition detect_flags (help_text : string) : list (string * bool) :=
  map (fun flag => (flag, str_in flag help_text)) known_flags.

(** [supports.get(flag)] used as a condition: a missing key counts as
    false. *)
Definition supports_flag (supports : list (string * bool)) (flag : string) : bool :=
  match dict_get supports flag with
  | Some b => b
  | None => false
  end.

(** ** Camera math *)

Definition camera_string (direction : vec3) (distance : float) : string :=
  let '(dx, dy, dz) := direction in
  let eye := [fmul dx distance; fmul dy distance; fmul dz distance] in
  let center := [fzero; fzero; fzero] in
  let vals := (eye ++ center)%list in
  join "," (map (format_fixed 3) vals).

(** [math.pi] and the constant [math.radians] multiplies by. *)
Definition math_pi : float := S754_finite false 7074237752028440 (-51).
Definition deg_to_rad : float := fdiv math_pi (float_of_Z 180).
Definition math_radians (x : float) : float := fmul x deg_to_rad.

(** What the script takes from the Python runtime: [float()] on a string
    ([inl] carries the message of the [ValueError]) and the C library's
    [cos] and [sin]. *)
Record Runtime : Type := {
  py_float : string -> string + float;
  math_cos : float -> float;
  math_sin : float -> float
}.

Definition direction_from_angles (rt : Runtime) (az_deg el_deg : float) : vec3 :=
  let az := math_radians az_deg in
  let el := math_radians el_deg in
  let x := fmul (math_cos rt el) (math_cos rt az) in
  let y := fmul (math_cos rt el) (math_sin rt az) in
  let z := math_sin rt el in
  (x, y, z).

(** ** [parse_angles] *)

Inductive py_exception : Type :=
| ValueError (msg : string)
| OSError (msg : string).

Fixpoint parse_angle_parts (rt : Runtime) (parts : list string)
    (angles : list (float * float)) : py_exception + list (float * float) :=
  match parts with
  | [] => inr angles
  | part :: rest =>
      let part := strip part in
      if String.eqb part "" then parse_angle_parts rt rest angles
      else
        match split_once ":" part with
        | None => inl (ValueError ("Invalid angle '" ++ part ++ "', expected az:el"))
        | Some (az_str, el_str) =>
            match py_float rt az_str with
            | inl msg => inl (ValueError msg)
            | inr az =>
                match py_float rt el_str with
                | inl msg => inl (ValueError msg)
                | inr el => parse_angle_parts rt rest (angles ++ [(az, el)])%list
                end
            end
        end
  end.

Definition parse_angles (rt : Runtime) (value : string)
    : py_exception + list (float * float) :=
  parse_angle_parts rt (split_on "," value) [].

(** ** Command-line arguments *)

Inductive subcommand : Type := Validate | Stl | Screenshots.

(** The [argparse] namespace handed to the handlers.  [None] is an option
    that was not given; the numeric options carry their defaults. *)
Record Args : Type := {
  openscad : option string;
  command : subcommand;
  input : string;
  out_dir : option string;
  define : list string;
  keep : bool;
  output : option string;
  preset : option string;
  views : option string;
  angles : option string;
  turntable : option Z;
  elevation : float;
  az_start : float;
  distance : float;
  width : Z;
  height : Z;
  projection : option string;
  colorscheme : option string;
  view_opts : option string
}.

(** Truth value of [args.turntable]: [None] and [0] are false. *)
Definition truthy_int (o : option Z) : bool :=
  match o with
  | Some n => negb (n =? 0)
  | None => false
  end.

(** [a or b] for an optional string and a default. *)
Definition str_or (o : option string) (default : string) : string :=
  match o with
  | Some s => if String.eqb s "" then default else s
  | None => default
  end.

(** ** Effects: printed lines, file-system changes, child processes *)

Inductive event : Type :=
| Print (line : string)
| SubprocessRun (cmd : list string) (openscadpath : option string)
| Mkdir (path : string)
| CreateTemp (path : string)
| Unlink (path : string).

(** How a computation ends: with a value, through [sys.exit], or with an
    exception nobody catches. *)
Inductive outcome (A : Type) : Type :=
| Ret (a : A)
| Exit (code : Z)
| Raise (e : py_exception).

Arguments Ret {A} a.
Arguments Exit {A} code.
Arguments Raise {A} e.

(** A computation is the trace it leaves and the way it ends. *)
Definition M (A : Type) : Type := (list event * outcome A)%type.

Definition ret {A : Type} (a : A) : M A := ([], Ret a).

Definition bind {A B : Type} (m : M A) (f : A -> M B) : M B :=
  match m with
  | (tr, Ret a) => let '(tr', r) := f a in ((tr ++ tr')%list, r)
  | (tr, Exit c) => (tr, Exit c)
  | (tr, Raise e) => (tr, Raise e)
  end.

Definition emit (e : event) : M unit := ([e], Ret tt).
Definition print (line : string) : M unit := emit (Print line).
Definition sys_exit {A : Type} (code : Z) : M A := ([], Exit code).
Definition raise {A : Type} (e : py_exception) : M A := ([], Raise e).

Notation "x <- c1 ;; c2" := (bind c1 (fun x => c2))
  (at level 61, c1 at next level, right associativity).
Notation "c1 ;;; c2" := (bind c1 (fun _ => c2))
  (at level 61, right associativity).

(** The process exit status: [main]'s return value goes to [sys.exit], and
    an uncaught exception ends the interpreter with status 1. *)
Definition exit_status (o : outcome Z) : Z :=
  match o with
  | Ret n => n
  | Exit c => c
  | Raise _ => 1
  end.

(** What [subprocess.run] does with a command: the child ran to
    completion, or it could not be started. *)
Inductive proc_result : Type :=
| Completed (returncode : Z) (stdout stderr : string)
| SpawnError (msg : string).

(** The host the script runs on: environment variables, the file system
    as far as the script looks at it, and the child processes.  Paths are
    kept as the strings that [str(path)] gives; [pathlib]'s [expanduser],
    [/], [stem] and [parent] are functions of the host.  [mkdir_error],
    [named_temporary_file] and [stat_size] answer with the message of the
    [OSError] when the operation fails. *)
Record Host : Type := {
  environ_get : string -> option string;
  path_exists : string -> bool;
  expanduser : string -> string;
  path_join : string -> string -> string;
  path_stem : string -> string;
  path_parent : string -> string;
  mkdir_error : string -> option string;
  named_temporary_file : string -> string -> string -> string + string;
  stat_size : string -> string + Z;
  subprocess_run : list string -> option string -> proc_result
}.

(** ** Text helpers of the command layer *)

Definition Z_to_string (z : Z) : string := NilEmpty.string_of_int (Z.to_int z).

(** [f"{n:,}"] for a non-negative [n]. *)
Fixpoint group3_rev (l : list ascii) (k : nat) : list ascii :=
  match l with
  | [] => []
  | c :: rest =>
      match k with
      | O => ","%char :: c :: group3_rev rest 2
      | S k' => c :: group3_rev rest k'
      end
  end.

Definition format_thousands (n : Z) : string :=
  string_of_list_ascii
    (rev (group3_rev (rev (list_ascii_of_string (dec_string n))) 3)).

Definition is_alnum (c : ascii) : bool :=
  let n := N_of_ascii c in
  (((48 <=? n) && (n <=? 57)) || ((65 <=? n) && (n <=? 90))
   || ((97 <=? n) && (n <=? 122)))%N.

Definition shlex_safe (c : ascii) : bool :=
  is_alnum c || char_in c "_@%+=:,./-".

Fixpoint string_forallb (p : ascii -> bool) (s : string) : bool :=
  match s with
  | EmptyString => true
  | String c rest => p c && string_forallb p rest
  end.

Definition dquote : string := String "034"%char EmptyString.

Fixpoint replace_char_by (a : ascii) (b : string) (s : string) : string :=
  match s with
  | EmptyString => EmptyString
  | String c rest =>
      (if Ascii.eqb c a then b else String c EmptyString)
      ++ replace_char_by a b rest
  end.

(** [shlex.quote]. *)
Definition shlex_quote (s : string) : string :=
  if String.eqb s "" then "''"
  else if string_forallb shlex_safe s then s
  else "'" ++ replace_char_by "'"%char ("'" ++ dquote ++ "'" ++ dquote ++ "'") s ++ "'".

(** ** Locating the binary and probing it *)

Definition OPENSCAD_BIN : string :=
  "/Applications/OpenSCAD.app/Contents/MacOS/OpenSCAD".

Definition SCAD_HOME (h : Host) : string :=
  expanduser h
    match environ_get h "SCAD_HOME" with
    | Some v => v
    | None => "~/.scad"
    end.

Definition find_openscad (h : Host) : option string :=
  let env := environ_get h "OPENSCAD_BIN" in
  match env with
  | Some e =>
      if truthy_str env && path_exists h e then Some e
      else if path_exists h OPENSCAD_BIN then Some OPENSCAD_BIN
      else None
  | None => if path_exists h OPENSCAD_BIN then Some OPENSCAD_BIN else None
  end.

Definition load_help_text (h : Host) (bin : string) : M string :=
  emit (SubprocessRun [bin; "--help"] None) ;;;
  match subprocess_run h [bin; "--help"] None with
  | Completed _ out err => ret (out ++ err)
  | SpawnError _ => ret ""
  end.

(** ** Running the renderer *)

Definition run (h : Host) (cmd : list string) (env : string) : M unit :=
  print ("+ " ++ join " " (map shlex_quote cmd)) ;;;
  emit (SubprocessRun cmd (Some env)) ;;;
  match subprocess_run h cmd (Some env) with
  | Completed returncode _ _ =>
      if negb (returncode =? 0) then sys_exit returncode else ret tt
  | SpawnError msg => raise (OSError msg)
  end.

(** The value of [OPENSCADPATH] in the environment given to the renderer
    (the rest of the environment is inherited). *)
Definition get_scad_env (h : Host) : string :=
  let scad_path := SCAD_HOME h in
  if truthy_str (environ_get h "OPENSCADPATH") then
    let parts :=
      filter (fun p => negb (String.eqb p ""))
        (split_on ":" (str_or (environ_get h "OPENSCADPATH") "")) in
    let parts :=
      if existsb (String.eqb scad_path) parts then parts
      else scad_path :: parts in
    join ":" parts
  else scad_path.

Definition add_defines (cmd : list string) (defines : list string) : list string :=
  (cmd ++ flat_map (fun d => ["-D"; d]) defines)%list.

Definition ensure_scad_file (h : Host) (path : string) : M string :=
  let p := expanduser h path in
  if negb (path_exists h p) then
    print ("Input SCAD not found: " ++ p) ;;; sys_exit 1
  else ret p.

Definition ensure_dir (h : Host) (path : string) : M unit :=
  emit (Mkdir path) ;;;
  match mkdir_error h path with
  | Some msg => raise (OSError msg)
  | None => ret tt
  end.

Fixpoint for_each {A : Type} (l : list A) (body : A -> M unit) : M unit :=
  match l with
  | [] => ret tt
  | x :: rest => body x ;;; for_each rest body
  end.

(** The options [--render] and [--backend Manifold], when supported. *)
Definition render_flags (supports : list (string * bool)) : list string :=
  ((if supports_flag supports "--render" then ["--render"] else [])
   ++ (if supports_flag supports "--backend" then ["--backend"; "Manifold"] else []))%list.

(** ** [validate] and [stl] *)

Definition cmd_validate (h : Host) (args : Args) (bin : string)
    (supports : list (string * bool)) : M unit :=
  scad_file <- ensure_scad_file h (input args) ;;
  let out_dir :=
    expanduser h (str_or (out_dir args) (path_join h (SCAD_HOME h) "tmp")) in
  ensure_dir h out_dir ;;;
  tmp_path <-
    match named_temporary_file h (path_stem h scad_file ++ "_validate_") ".stl" out_dir with
    | inl msg => raise (OSError msg)
    | inr name => emit (CreateTemp name) ;;; ret name
    end ;;
  let cmd := ([bin] ++ render_flags supports)%list in
  let cmd := add_defines cmd (define args) in
  let cmd := (cmd ++ ["-o"; tmp_path; scad_file])%list in
  run h cmd (get_scad_env h) ;;;
  if keep args then print ("Validation output kept at " ++ tmp_path)
  else emit (Unlink tmp_path) ;;; print "Validation succeeded".

Definition cmd_stl (h : Host) (args : Args) (bin : string)
    (supports : list (string * bool)) : M unit :=
  scad_file <- ensure_scad_file h (input args) ;;
  let out_path :=
    expanduser h
      (str_or (output args)
         (path_join h (path_join h (SCAD_HOME h) "outputs")
            (path_stem h scad_file ++ ".stl"))) in
  ensure_dir h (path_parent h out_path) ;;;
  let cmd := ([bin] ++ render_flags supports)%list in
  let cmd := add_defines cmd (define args) in
  let cmd := (cmd ++ ["-o"; out_path; scad_file])%list in
  run h cmd (get_scad_env h) ;;;
  match stat_size h out_path with
  | inl msg => raise (OSError msg)
  | inr size =>
      print ("STL saved: " ++ out_path ++ " (" ++ format_thousands size ++ " bytes)")
  end.

(** ** [screenshots]: choosing the shots *)

(** [range(count)]. *)
Definition range (count : Z) : list Z :=
  map Z.of_nat (seq 0 (Z.to_nat count)).

Definition angle_shot (rt : Runtime) (args : Args) (a : float * float) : shot :=
  let '(az, el) := a in
  let label := "az" ++ label_from_value az ++ "_el" ++ label_from_value el in
  let direction := direction_from_angles rt az el in
  (label, camera_string direction (distance args)).

(** The number of turntable shots, [max(1, int(360 / step))] for a
    positive [int] step.  The true division yields the float nearest to
    [360 / step]; no such quotient rounds up to the next integer, so
    truncating it gives the integer quotient (see [int_360_over_quotient]). *)
Definition turntable_count (step : Z) : Z := Z.max 1 (360 / step).

(** The azimuth of shot [i]: [args.az_start + i * step]. *)
Definition turntable_azimuth (args : Args) (step i : Z) : float :=
  fadd (az_start args) (float_of_Z (i * step)).

Definition turntable_shot (rt : Runtime) (args : Args) (step i : Z) : shot :=
  let az := turntable_azimuth args step i in
  let label :=
    "tt_az" ++ label_from_value az ++ "_el" ++ label_from_value (elevation args) in
  let direction := direction_from_angles rt az (elevation args) in
  (label, camera_string direction (distance args)).

(** The body of the turntable branch, for the step given on the command
    line. *)
Definition turntable_shots (rt : Runtime) (args : Args) (turntable_arg : Z)
    : list shot :=
  let step := Z.abs turntable_arg in
  let step := if step =? 0 then 1 else step in
  let count := turntable_count step in
  map (turntable_shot rt args step) (range count).

Definition view_names (value : string) : list string :=
  map strip (filter (fun v => negb (String.eqb (strip v) "")) (split_on "," value)).

Fixpoint view_shots (args : Args) (names : list string) : M (list shot) :=
  match names with
  | [] => ret []
  | view :: rest =>
      match dict_get VIEW_DIRECTIONS view with
      | None =>
          print ("Unknown view '" ++ view ++ "', skipping") ;;;
          view_shots args rest
      | Some direction =>
          shots <- view_shots args rest ;;
          ret ((view, camera_string direction (distance args)) :: shots)
      end
  end.

Definition preset_shots_of (name : string) : M (list shot) :=
  match dict_get PRESETS name with
  | Some (s :: l) => ret (s :: l)
  | _ =>
      print ("Unknown preset '" ++ name ++ "'. Available: "
             ++ join ", " (dict_keys PRESETS)) ;;;
      sys_exit 1
  end.

Definition default_shots : list shot :=
  match dict_get PRESETS "single" with
  | Some l => l
  | None => []
  end.

(** The [if]/[elif] chain of [cmd_screenshots] that fills [shots]. *)
Definition select_shots (rt : Runtime) (args : Args) : M (list shot) :=
  if truthy_str (angles args) then
    match parse_angles rt (str_or (angles args) "") with
    | inl e => raise e
    | inr pairs => ret (map (angle_shot rt args) pairs)
    end
  else if truthy_int (turntable args) then
    ret (turntable_shots rt args
           match turntable args with Some n => n | None => 0 end)
  else if truthy_str (views args) then
    view_shots args (view_names (str_or (views args) ""))
  else if truthy_str (preset args) then
    preset_shots_of (str_or (preset args) "")
  else ret default_shots.

(** ** [screenshots]: rendering the shots *)

Definition screenshot_cmd (h : Host) (args : Args) (bin : string)
    (supports : list (string * bool)) (scad_file out_file camera : string)
    : list string :=
  let colorscheme := str_or (colorscheme args) "Cornfield" in
  let projection := str_or (projection args) "p" in
  let camera_opt := "--camera=" ++ camera in
  let imgsize_opt :=
    "--imgsize=" ++ Z_to_string (width args) ++ "," ++ Z_to_string (height args) in
  let colorscheme_opt := "--colorscheme=" ++ colorscheme in
  let projection_opt := "--projection=" ++ projection in
  let view_opt := "--view=" ++ str_or (view_opts args) "" in
  let cmd := ([bin] ++ render_flags supports)%list in
  let cmd := add_defines cmd (define args) in
  (cmd
   ++ (if supports_flag supports "--autocenter" then ["--autocenter"] else [])
   ++ (if supports_flag supports "--viewall" then ["--viewall"] else [])
   ++ (if supports_flag supports "--camera" then [camera_opt] else [])
   ++ (if supports_flag supports "--imgsize" then [imgsize_opt] else [])
   ++ (if supports_flag supports "--colorscheme" then [colorscheme_opt] else [])
   ++ (if supports_flag supports "--projection" then [projection_opt] else [])
   ++ (if truthy_str (view_opts args) && supports_flag supports "--view"
       then [view_opt] else [])
   ++ ["-o"; out_file; scad_file])%list.

Definition capture (h : Host) (args : Args) (bin : string)
    (supports : list (string * bool)) (scad_file out_dir : string) (s : shot)
    : M unit :=
  let '(label, camera) := s in
  let out_file :=
    path_join h out_dir (path_stem h scad_file ++ "_" ++ label ++ ".png") in
  let cmd := screenshot_cmd h args bin supports scad_file out_file camera in
  print ("  Capturing: " ++ label) ;;;
  run h cmd (get_scad_env h) ;;;
  print ("    -> " ++ out_file).

Definition cmd_screenshots (h : Host) (rt : Runtime) (args : Args) (bin : string)
    (supports : list (string * bool)) : M unit :=
  scad_file <- ensure_scad_file h (input args) ;;
  let out_dir :=
    expanduser h
      (str_or (out_dir args)
         (path_join h (path_join h (SCAD_HOME h) "renders") (path_stem h scad_file))) in
  ensure_dir h out_dir ;;;
  shots <- select_shots rt args ;;
  match shots with
  | [] => print "No screenshot views generated"
  | _ =>
      print ("Taking " ++ Z_to_string (Z.of_nat (List.length shots))
             ++ " screenshot(s) of: " ++ scad_file) ;;;
      print ("Output directory: " ++ out_dir) ;;;
      print "" ;;;
      for_each shots (capture h args bin supports scad_file out_dir) ;;;
      print "" ;;;
      print "Screenshots complete!"
  end.

(** ** [main] *)

Definition not_found_message : string :=
  "OpenSCAD not found. Install OpenSCAD.app or set OPENSCAD_BIN.".

Definition main (h : Host) (rt : Runtime) (args : Args) : M Z :=
  let located :=
    if truthy_str (openscad args) then openscad args else find_openscad h in
  match located with
  | None => print not_found_message ;;; ret 1
  | Some bin =>
      help_text <- load_help_text h bin ;;
      let supports := detect_flags help_text in
      match command args with
      | Validate => cmd_validate h args bin supports
      | Stl => cmd_stl h args bin supports
      | Screenshots => cmd_screenshots h rt args bin supports
      end ;;;
      ret 0
  end.

(** The commands handed to [subprocess.run], in order. *)
Fixpoint subprocess_cmds (tr : list event) : list (list string) :=
  match tr with
  | [] => []
  | SubprocessRun cmd _ :: rest => cmd :: subprocess_cmds rest
  | _ :: rest => subprocess_cmds rest
  end.

(** The lines printed, in order. *)
Fixpoint printed (tr : list event) : list string :=
  match tr with
  | [] => []
  | Print line :: rest => line :: printed rest
  | _ :: rest => printed rest
  end.

(** ** Concrete hosts and runtimes for the examples *)

(** [float()] restricted to plain decimal literals: an optional sign,
    digits, and an optional fraction. *)
Fixpoint digits_value (s : string) (acc : Z) : option Z :=
  match s with
  | EmptyString => Some acc
  | String c rest =>
      let n := Z.of_N (N_of_ascii c) in
      if (48 <=? n) && (n <=? 57) then digits_value rest (10 * acc + (n - 48))
      else None
  end.

Definition decimal_literal (s : string) : string + float :=
  let err := inl ("could not convert string to float: '" ++ s ++ "'") in
  let '(neg, body) :=
    match s with
    | String "-"%char rest => (true, rest)
    | String "+"%char rest => (false, rest)
    | _ => (false, s)
    end in
  let '(int_part, frac_part) :=
    match split_once "." body with
    | Some (a, b) => (a, b)
    | None => (body, "")
    end in
  if String.eqb (int_part ++ frac_part) "" then err
  else
    match digits_value (int_part ++ frac_part) 0 with
    | None => err
    | Some n =>
        let v := float_of_decimal n (String.length frac_part) in
        inr (if neg then SFopp v else v)
    end.

(** A runtime whose trigonometry is exact on the two angles used below
    ([cos 0 = 1], [sin 0 = 0]); elsewhere it answers zero. *)
Definition example_runtime : Runtime := {|
  py_float := fun s => decimal_literal (strip s);
  math_cos := fun x => match x with S754_zero _ => f_one | _ => fzero end;
  math_sin := fun _ => fzero
|}.

(** The defaults of the [screenshots] options: elevation 25.0, start
    azimuth 0.0, distance 200.0, a 1024 by 1024 image. *)
Definition f_25 : float := Eval vm_compute in float_of_Z 25.
Definition f_200 : float := Eval vm_compute in float_of_Z 200.

Definition default_args : Args := {|
  openscad := None;
  command := Screenshots;
  input := "model.scad";
  out_dir := None;
  define := [];
  keep := false;
  output := None;
  preset := None;
  views := None;
  angles := None;
  turntable := None;
  elevation := f_25;
  az_start := fzero;
  distance := f_200;
  width := 1024;
  height := 1024;
  projection := None;
  colorscheme := None;
  view_opts := None
|}.

Definition with_angles (a : Args) (v : option string) : Args := {|
  openscad := openscad a; command := command a; input := input a;
  out_dir := out_dir a; define := define a; keep := keep a;
  output := output a; preset := preset a; views := views a;
  angles := v; turntable := turntable a; elevation := elevation a;
  az_start := az_start a; distance := distance a; width := width a;
  height := height a; projection := projection a;
  colorscheme := colorscheme a; view_opts := view_opts a |}.

Definition with_turntable (a : Args) (v : option Z) : Args := {|
  openscad := openscad a; command := command a; input := input a;
  out_dir := out_dir a; define := define a; keep := keep a;
  output := output a; preset := preset a; views := views a;
  angles := angles a; turntable := v; elevation := elevation a;
  az_start := az_start a; distance := distance a; width := width a;
  height := height a; projection := projection a;
  colorscheme := colorscheme a; view_opts := view_opts a |}.

Definition with_views (a : Args) (v : option string) : Args := {|
  openscad := openscad a; command := command a; input := input a;
  out_dir := out_dir a; define := define a; keep := keep a;
  output := output a; preset := preset a; views := v;
  angles := angles a; turntable := turntable a; elevation := elevation a;
  az_start := az_start a; distance := distance a; width := width a;
  height := height a; projection := projection a;
  colorscheme := colorscheme a; view_opts := view_opts a |}.

Definition with_preset (a : Args) (v : option string) : Args := {|
  openscad := openscad a; command := command a; input := input a;
  out_dir := out_dir a; define := define a; keep := keep a;
  output := output a; preset := v; views := views a;
  angles := angles a; turntable := turntable a; elevation := elevation a;
  az_start := az_start a; distance := distance a; width := width a;
  height := height a; projection := projection a;
  colorscheme := colorscheme a; view_opts := view_opts a |}.

Definition with_openscad (a : Args) (v : option string) : Args := {|
  openscad := v; command := command a; input := input a;
  out_dir := out_dir a; define := define a; keep := keep a;
  output := output a; preset := preset a; views := views a;
  angles := angles a; turntable := turntable a; elevation := elevation a;
  az_start := az_start a; distance := distance a; width := width a;
  height := height a; projection := projection a;
  colorscheme := colorscheme a; view_opts := view_opts a |}.

(** A host with OpenSCAD installed at the default place, a model file
    [model.scad], and a renderer that advertises [--camera] and
    [--imgsize] and always succeeds. *)
Definition example_host : Host := {|
  environ_get := fun _ => None;
  path_exists := fun p => String.eqb p OPENSCAD_BIN || String.eqb p "model.scad";
  expanduser := fun p => p;
  path_join := fun a b => a ++ "/" ++ b;
  path_stem := fun _ => "model";
  path_parent := fun _ => "~/.scad/outputs";
  mkdir_error := fun _ => None;
  named_temporary_file := fun pre suf dir => inr (dir ++ "/" ++ pre ++ "tmp" ++ suf);
  stat_size := fun _ => inr 1024;
  subprocess_run := fun cmd _ =>
    match cmd with
    | [_; "--help"] => Completed 0 "Usage: openscad [--camera arg] [--imgsize arg]" ""
    | _ => Completed 0 "" ""
    end
|}.

(** A host on which nothing exists and nothing can be started. *)
Definition bare_host : Host := {|
  environ_get := fun _ => None;
  path_exists := fun _ => false;
  expanduser := fun p => p;
  path_join := fun a b => a ++ "/" ++ b;
  path_stem := fun _ => "model";
  path_parent := fun _ => ".";
  mkdir_error := fun _ => None;
  named_temporary_file := fun pre suf dir => inr (dir ++ "/" ++ pre ++ "tmp" ++ suf);
  stat_size := fun _ => inl "No such file or directory";
  subprocess_run := fun _ _ => SpawnError "No such file or directory"
|}.


(** ** Predicates and values used in the statements *)

(** A field of the angle list that is not blank and has no colon: the test
    [":" not in part] on the stripped field. *)
Definition lacks_colon (part : string) : bool :=
  negb (String.eqb (strip part) "") && negb (char_in ":" (strip part)).

(** The angle list has such a field. *)
Definition has_pair_without_colon (value : string) : bool :=
  existsb lacks_colon (split_on "," value).

(** The decimal digits, strings made of them, and non-empty strings. *)
Definition is_digit (c : ascii) : bool :=
  let n := N_of_ascii c in ((48 <=? n) && (n <=? 57))%N.

Definition all_digits (s : string) : bool := string_forallb is_digit s.

Definition nonempty (s : string) : bool := negb (String.eqb s "").

(** A numeral with exactly [digits] decimals: an optional minus sign, at
    least one digit, a point, and [digits] digits. *)
Definition unsigned_fixed_decimal (digits : nat) (body : string) : bool :=
  match split_once "." body with
  | Some (int_part, frac_part) =>
      nonempty int_part && all_digits int_part
      && all_digits frac_part && Nat.eqb (String.length frac_part) digits
  | None => false
  end.

Definition is_fixed_decimal (digits : nat) (s : string) : bool :=
  unsigned_fixed_decimal digits
    match s with String "-"%char rest => rest | _ => s end.

(** A comma-separated list of exactly [n] unsigned integers. *)
Definition is_integer_list (n : nat) (s : string) : bool :=
  let parts := split_on "," s in
  Nat.eqb (List.length parts) n
  && forallb (fun p => nonempty p && all_digits p) parts.

(** The characters [format_fixed] can produce. *)
Definition format_char (c : ascii) : bool := is_digit c || char_in c "-.naif".

(** [|v|] in tenths, rounded to the nearest integer with ties to even: the
    integer whose digits [f"{abs(v):.1f}"] prints. *)
Definition tenths (v : float) : Z :=
  match v with
  | S754_finite _ m e => scaled_round 1 m e
  | _ => 0
  end.

(** The part of a label after the integer digits: nothing when the tenths
    digit is zero, otherwise "p" and that digit. *)
Definition label_suffix (t : Z) : string :=
  if t mod 10 =? 0 then "" else String "p" (String (digit_char (t mod 10)) "").

(** A string that is empty or starts with a character that is no digit. *)
Definition no_digit_head (s : string) : Prop :=
  match s with
  | EmptyString => True
  | String c _ => is_digit c = false
  end.

(** The characters of a label. *)
Definition is_lower (c : ascii) : bool :=
  let n := N_of_ascii c in ((97 <=? n) && (n <=? 122))%N.

Definition label_char (c : ascii) : bool := is_lower c || is_digit c.

Definition finite_label_char (c : ascii) : bool := is_digit c || char_in c "mp".

(** Angles written with one decimal, [k / 10] for an integer [k]. *)
Definition one_decimal (k : Z) : float := float_of_decimal k 1.

(** [k / 10] as a float is finite, rounds back to [|k|] tenths and is
    negative exactly when [k] is. *)
Definition one_decimal_ok (k : Z) : bool :=
  is_finite (one_decimal k)
  && (tenths (one_decimal k) =? Z.abs k)
  && Bool.eqb (fltb (one_decimal k) fzero) (k <? 0).





(** [int(x)] for a float [x]: truncation towards zero ([None] where
    Python raises). *)
Definition int_of_float (v : float) : option Z :=
  match v with
  | S754_zero _ => Some 0
  | S754_finite s m e =>
      let n := if 0 <=? e then Zpos m * 2 ^ e else Zpos m / 2 ^ (- e) in
      Some (if s then - n else n)
  | _ => None
  end.

(** [int(360 / step)] computed through the float quotient. *)
Definition int_360_over (step : Z) : option Z :=
  int_of_float (fdiv (float_of_Z 360) (float_of_Z step)).


(** ** Predicates and values used in the properties of the command layer *)




(** The output directory of [screenshots] and the command line that renders
    one shot into it. *)
Definition screenshots_out_dir (h : Host) (args : Args) (scad_file : string) : string :=
  expanduser h
    (str_or (out_dir args)
       (path_join h (path_join h (SCAD_HOME h) "renders") (path_stem h scad_file))).

Definition shot_cmd (h : Host) (args : Args) (bin : string)
    (supports : list (string * bool)) (scad_file : string) (s : shot) : list string :=
  screenshot_cmd h args bin supports scad_file
    (path_join h (screenshots_out_dir h args scad_file)
       (path_stem h scad_file ++ "_" ++ fst s ++ ".png"))
    (snd s).

(** What [screenshots] does once the shots are selected. *)
Definition screenshots_body (h : Host) (args : Args) (bin : string)
    (supports : list (string * bool)) (scad_file : string) (shots : list shot)
    : M unit :=
  match shots with
  | [] => print "No screenshot views generated"
  | _ =>
      print ("Taking " ++ Z_to_string (Z.of_nat (List.length shots))
             ++ " screenshot(s) of: " ++ scad_file) ;;;
      print ("Output directory: " ++ screenshots_out_dir h args scad_file) ;;;
      print "" ;;;
      for_each shots
        (capture h args bin supports scad_file (screenshots_out_dir h args scad_file)) ;;;
      print "" ;;;
      print "Screenshots complete!"
  end.

(** The renderer ends the command line [cmd] with status [rc]. *)
Definition render_status (h : Host) (cmd : list string) (rc : Z) : Prop :=
  exists out err, subprocess_run h cmd (Some (get_scad_env h)) = Completed rc out err.

(** The binary [main] settles on: the [--openscad] value when it is not
    empty, otherwise what [find_openscad] finds. *)
Definition located (h : Host) (args : Args) : option string :=
  if truthy_str (openscad args) then openscad args else find_openscad h.

(** The scratch directory of [validate] and the command line that renders
    into the scratch file [tmp]. *)
Definition validate_out_dir (h : Host) (args : Args) : string :=
  expanduser h (str_or (out_dir args) (path_join h (SCAD_HOME h) "tmp")).

Definition validate_cmd (args : Args) (bin : string)
    (supports : list (string * bool)) (scad_file tmp : string) : list string :=
  (add_defines ([bin] ++ render_flags supports) (define args)
   ++ ["-o"; tmp; scad_file])%list.

(** The warning printed for a view name that is not in the table. *)
Definition unknown_view_warning (view : string) : event :=
  Print ("Unknown view '" ++ view ++ "', skipping").

Definition known_view (view : string) : bool :=
  match dict_get VIEW_DIRECTIONS view with Some _ => true | None => false end.

(** The shot of a view name: none when the name is not in the table. *)
Definition view_shot_of (args : Args) (view : string) : list shot :=
  match dict_get VIEW_DIRECTIONS view with
  | Some direction => [(view, camera_string direction (distance args))]
  | None => []
  end.

(** The non-empty entries of the inherited [OPENSCADPATH]. *)
Definition inherited_entries (h : Host) : list string :=
  filter (fun p => negb (String.eqb p ""))
    (split_on ":" (str_or (environ_get h "OPENSCADPATH") "")).

(** The fields of an angle list that are not blank, stripped. *)
Definition angle_fields (value : string) : list string :=
  map strip (filter (fun p => negb (String.eqb (strip p) "")) (split_on "," value)).

(** The field [field] reads as the pair [pair]: text, a colon, text, and
    [float()] turns the two texts into the two numbers. *)
Definition reads_as (rt : Runtime) (field : string) (pair : float * float) : Prop :=
  exists az_str el_str,
    split_once ":" field = Some (az_str, el_str)
    /\ py_float rt az_str = inr (fst pair)
    /\ py_float rt el_str = inr (snd pair).

(** The arguments every render command may carry whatever the binary
    supports: the binary itself, the [-D] definitions, and the output and
    input files. *)
Definition plain_argument (args : Args) (bin scad_file out_file x : string) : Prop :=
  x = bin \/ x = "-D" \/ In x (define args)
  \/ x = "-o" \/ x = out_file \/ x = scad_file.

(** An argument that belongs to an option whose flag token occurs in the
    help text. *)
Definition advertised_option (help_text x : string) : Prop :=
  exists flag,
    In flag known_flags /\ str_in flag help_text = true
    /\ (String.prefix flag x = true \/ (flag = "--backend" /\ x = "Manifold")).

(** A positive normal binary64 number. *)
Definition positive_normal (v : float) : bool :=
  match v with
  | S754_finite false m e =>
      Pos.eqb (digits2_pos m) 53 && (emin prec emax <=? e) && (e <=? emax - prec)
  | _ => false
  end.

(** The camera text of a named view at distance [d] ("" for a name that is
    not in the table). *)
Definition view_camera (name : string) (d : float) : string :=
  match dict_get VIEW_DIRECTIONS name with
  | Some direction => camera_string direction d
  | None => ""
  end.

(** The output path of [stl] and the command line that renders into it. *)
Definition stl_out_path (h : Host) (args : Args) (scad_file : string) : string :=
  expanduser h
    (str_or (output args)
       (path_join h (path_join h (SCAD_HOME h) "outputs")
          (path_stem h scad_file ++ ".stl"))).

(** A host like [example_host] whose renderer ends every render with
    status 3. *)
Definition failing_host : Host := {|
  environ_get := fun _ => None;
  path_exists := fun p => String.eqb p OPENSCAD_BIN || String.eqb p "model.scad";
  expanduser := fun p => p;
  path_join := fun a b => a ++ "/" ++ b;
  path_stem := fun _ => "model";
  path_parent := fun _ => "~/.scad/outputs";
  mkdir_error := fun _ => None;
  named_temporary_file := fun pre suf dir => inr (dir ++ "/" ++ pre ++ "tmp" ++ suf);
  stat_size := fun _ => inr 1024;
  subprocess_run := fun cmd _ =>
    match cmd with
    | [_; "--help"] => Completed 0 "Usage: openscad [--camera arg] [--imgsize arg]" ""
    | _ => Completed 3 "" ""
    end
|}.

(** A host that inherits a library path with an empty entry. *)
Definition library_host : Host := {|
  environ_get := fun name =>
    if String.eqb name "OPENSCADPATH" then Some "/lib::/other" else None;
  path_exists := fun p => String.eqb p OPENSCAD_BIN || String.eqb p "model.scad";
  expanduser := fun p => p;
  path_join := fun a b => a ++ "/" ++ b;
  path_stem := fun _ => "model";
  path_parent := fun _ => "~/.scad/outputs";
  mkdir_error := fun _ => None;
  named_temporary_file := fun pre suf dir => inr (dir ++ "/" ++ pre ++ "tmp" ++ suf);
  stat_size := fun _ => inr 1024;
  subprocess_run := fun _ _ => Completed 0 "" ""
|}.

(** * Properties *)

(** ** Shot selection *)

Lemma range_length (count : Z) : List.length (range count) = Z.to_nat count.
Proof. unfold range. now rewrite length_map, length_seq. Qed.

Lemma range_nth (count i : Z) :
  0 <= i < count -> nth_error (range count) (Z.to_nat i) = Some i.
Proof.
  intros Hi. unfold range.
  rewrite nth_error_map, nth_error_seq.
  replace (Z.to_nat i <? Z.to_nat count)%nat with true
    by (symmetry; apply Nat.ltb_lt; lia).
  cbn. f_equal. lia.
Qed.

Lemma range_In (count i : Z) : 0 <= i < count -> In i (range count).
Proof. intros Hi. eapply nth_error_In, range_nth, Hi. Qed.

(** The float quotient [360 / step], truncated, is the integer quotient
    that [turntable_count] uses (checked for every step up to 4096, far
    beyond the point where the quotient has dropped below 1). *)
Lemma int_360_over_quotient (step : Z) :
  1 <= step <= 4096 -> int_360_over step = Some (360 / step).
Proof.
  intros Hs.
  assert (Hall : forallb
            (fun i => match int_360_over (i + 1) with
                      | Some q => q =? 360 / (i + 1)
                      | None => false
                      end) (range 4096) = true) by (vm_compute; reflexivity).
  rewrite forallb_forall in Hall.
  assert (Hin : In (step - 1) (range 4096)) by (apply range_In; lia).
  specialize (Hall _ Hin). replace (step - 1 + 1) with step in Hall by lia.
  destruct (int_360_over step) as [q|]; [|discriminate].
  apply Z.eqb_eq in Hall. now subst.
Qed.



(** C7: with no angles, turntable or views in the way, the preset named
    "standard" selects exactly seven shots, in the order front, back, left,
    right, top, bottom, iso; nothing is printed and nothing fails. *)
Theorem standard_preset_seven_shots (rt : Runtime) (args : Args) :
  truthy_str (angles args) = false ->
  truthy_int (turntable args) = false ->
  truthy_str (views args) = false ->
  preset args = Some "standard" ->
  exists shots,
    select_shots rt args = ([], Ret shots)
    /\ dict_get PRESETS "standard" = Some shots
    /\ List.length shots = 7%nat
    /\ map fst shots = ["front"; "back"; "left"; "right"; "top"; "bottom"; "iso"].
Proof.
  intros Ha Ht Hv Hp. unfold select_shots. rewrite Ha, Ht, Hv, Hp. cbn.
  eexists. repeat split; reflexivity.
Qed.

Lemma standard_preset_seven_shots_witness :
  exists shots,
    select_shots example_runtime (with_preset default_args (Some "standard"))
    = ([], Ret shots)
    /\ dict_get PRESETS "standard" = Some shots
    /\ List.length shots = 7%nat
    /\ map fst shots = ["front"; "back"; "left"; "right"; "top"; "bottom"; "iso"].
Proof.
  apply (standard_preset_seven_shots example_runtime
           (with_preset default_args (Some "standard"))); reflexivity.
Defined.

Lemma view_shots_distance (a b : Args) (names : list string) :
  distance a = distance b -> view_shots a names = view_shots b names.
Proof.
  intros Hd. induction names as [|view rest IH]; cbn; [reflexivity|].
  rewrite IH, Hd. reflexivity.
Qed.

(** C1: a turntable request with step 0 never reaches the turntable
    branch.  The branch body would clamp the step to 1 and produce 360
    shots, one per degree from the start azimuth, but for every invocation
    the request is dispatched exactly as if [--turntable] had not been
    given; with nothing else on the command line the single default shot
    is selected. *)
Theorem turntable_zero_not_dispatched (rt : Runtime) (args : Args) :
  select_shots rt (with_turntable args (Some 0))
  = select_shots rt (with_turntable args None)
  /\ select_shots rt (with_turntable default_args (Some 0))
     = ([], Ret [("iso", "0,0,0,55,0,25,0")])
  /\ List.length (turntable_shots rt args 0) = 360%nat
  /\ (forall i, 0 <= i < 360 ->
        nth_error (turntable_shots rt args 0) (Z.to_nat i)
        = Some (turntable_shot rt args 1 i)).
Proof.
  split.
  { unfold select_shots. cbn [angles turntable views preset with_turntable truthy_int].
    change (negb (0 =? 0)) with false. cbv iota.
    destruct (truthy_str (angles args)); [reflexivity|].
    destruct (truthy_str (views args)); [|reflexivity].
    apply view_shots_distance. reflexivity. }
  split; [reflexivity|].
  unfold turntable_shots. cbn [Z.abs Z.eqb]. change (turntable_count 1) with 360.
  split; [rewrite length_map, range_length; reflexivity|].
  intros i Hi. rewrite nth_error_map, (range_nth 360 i Hi). reflexivity.
Qed.






(** ** Capability probing *)

Lemma prefix_spec (s1 s2 : string) :
  String.prefix s1 s2 = true <-> exists post, s2 = s1 ++ post.
Proof.
  revert s2. induction s1 as [|c s1 IH]; intros s2.
  - split; [intros _; exists s2; reflexivity|]. intros _. now destruct s2.
  - destruct s2 as [|d s2]; cbn.
    + split; [discriminate|]. intros [post H]. discriminate.
    + destruct (ascii_dec c d) as [->|Hne].
      * rewrite IH. split; intros [post H]; exists post.
        -- now rewrite H.
        -- now inversion H.
      * split; [discriminate|]. intros [post H]. congruence.
Qed.

Lemma str_in_spec (needle hay : string) :
  str_in needle hay = true <-> exists pre post, hay = pre ++ needle ++ post.
Proof.
  induction hay as [|c hay IH].
  - cbn [str_in]. rewrite orb_false_r, prefix_spec. split.
    + intros [post H]. exists "", post. exact H.
    + intros (pre & post & H). destruct pre; [now exists post|discriminate].
  - cbn [str_in]. rewrite orb_true_iff, prefix_spec, IH. split.
    + intros [[post H]|(pre & post & H)].
      * exists "", post. exact H.
      * exists (String c pre), post. cbn. now rewrite H.
    + intros (pre & post & H). destruct pre as [|d pre].
      * left. now exists post.
      * right. exists pre, post. cbn in H. now inversion H.
Qed.

(** C9: for every help text the probe's result has exactly the nine known
    flag tokens as its keys, in the fixed order and without repetition, and
    a token is mapped to true exactly when it occurs in the help text as a
    contiguous block.  A text that contains "--camera" and not "--viewall"
    gives camera true and viewall false. *)
Theorem detect_flags_substring_map (help_text : string) :
  dict_keys (detect_flags help_text) = known_flags
  /\ List.length known_flags = 9%nat
  /\ NoDup known_flags
  /\ (forall flag, In flag known_flags ->
        exists b, dict_get (detect_flags help_text) flag = Some b
                  /\ (b = true <-> exists pre post, help_text = pre ++ flag ++ post))
  /\ (forall flag, ~ In flag known_flags ->
        dict_get (detect_flags help_text) flag = None)
  /\ ((exists pre post, help_text = pre ++ "--camera" ++ post) ->
      ~ (exists pre post, help_text = pre ++ "--viewall" ++ post) ->
      dict_get (detect_flags help_text) "--camera" = Some true
      /\ dict_get (detect_flags help_text) "--viewall" = Some false).
Proof.
  split; [reflexivity|]. split; [reflexivity|].
  split.
  { unfold known_flags.
    repeat (constructor; [cbn; intuition discriminate|]). constructor. }
  assert (Hget : forall flag, In flag known_flags ->
            dict_get (detect_flags help_text) flag = Some (str_in flag help_text)).
  { intros flag Hin. cbn in Hin.
    repeat (destruct Hin as [<-|Hin]; [reflexivity|]). contradiction. }
  split.
  { intros flag Hin. exists (str_in flag help_text). split; [now apply Hget|].
    apply str_in_spec. }
  split.
  { intros flag Hnot. unfold detect_flags, known_flags. cbn [map dict_get].
    repeat match goal with
    | |- context [String.eqb ?k flag] =>
        destruct (String.eqb_spec k flag) as [E|_];
        [exfalso; apply Hnot; rewrite <- E; cbn; tauto|]
    end.
    reflexivity. }
  intros Hcam Hview.
  rewrite !Hget by (cbn; tauto).
  apply str_in_spec in Hcam. rewrite Hcam.
  destruct (str_in "--viewall" help_text) eqn:E; [|split; reflexivity].
  apply str_in_spec in E. contradiction.
Qed.

Lemma detect_flags_substring_map_witness :
  dict_get (detect_flags "Usage: openscad [--camera arg] [--imgsize arg]") "--camera"
  = Some true
  /\ dict_get (detect_flags "Usage: openscad [--camera arg] [--imgsize arg]") "--viewall"
     = Some false.
Proof.
  destruct (detect_flags_substring_map
              "Usage: openscad [--camera arg] [--imgsize arg]")
    as (_ & _ & _ & _ & _ & Hex).
  apply Hex.
  - exists "Usage: openscad [", " arg] [--imgsize arg]". reflexivity.
  - intros Hin. apply str_in_spec in Hin. vm_compute in Hin. discriminate.
Defined.

(** ** Malformed angle lists *)

Lemma split_once_none (sep : ascii) (s : string) :
  char_in sep s = false -> split_once sep s = None.
Proof.
  induction s as [|c s IH]; cbn [char_in split_once]; [reflexivity|].
  intros H. apply orb_false_iff in H as [Hc Hs].
  rewrite Ascii.eqb_sym, Hc, (IH Hs). reflexivity.
Qed.

Lemma parse_angle_parts_error (rt : Runtime) (parts : list string) :
  existsb lacks_colon parts = true ->
  forall acc, exists msg, parse_angle_parts rt parts acc = inl (ValueError msg).
Proof.
  induction parts as [|part rest IH]; cbn [existsb parse_angle_parts];
    [discriminate|].
  intros H acc. unfold lacks_colon in H at 1.
  destruct (String.eqb (strip part) "") eqn:Eblank.
  - cbn in H. apply IH, H.
  - cbn [negb andb] in H.
    destruct (char_in ":" (strip part)) eqn:Ecolon.
    + cbn [negb orb] in H.
      destruct (split_once ":" (strip part)) as [[az_str el_str]|];
        [|eexists; reflexivity].
      destruct (py_float rt az_str); [eexists; reflexivity|].
      destruct (py_float rt el_str); [eexists; reflexivity|].
      apply IH, H.
    + rewrite (split_once_none _ _ Ecolon). eexists; reflexivity.
Qed.

Lemma has_pair_without_colon_nonempty (value : string) :
  has_pair_without_colon value = true -> truthy_str (Some value) = true.
Proof. destruct value; [discriminate | reflexivity]. Qed.

Lemma select_shots_malformed (rt : Runtime) (args : Args) (value : string) :
  angles args = Some value ->
  has_pair_without_colon value = true ->
  exists msg, select_shots rt args = ([], Raise (ValueError msg)).
Proof.
  intros Ha Hbad. unfold select_shots.
  rewrite Ha, (has_pair_without_colon_nonempty value Hbad).
  destruct (parse_angle_parts_error rt _ Hbad []) as [msg Hmsg].
  exists msg. unfold parse_angles.
  replace (str_or (Some value) "") with value
    by (destruct value; [discriminate | reflexivity]).
  now rewrite Hmsg.
Qed.

Lemma load_help_text_trace (h : Host) (bin : string) :
  exists text,
    load_help_text h bin = ([SubprocessRun [bin; "--help"] None], Ret text).
Proof.
  unfold load_help_text.
  destruct (subprocess_run h [bin; "--help"] None); eexists; reflexivity.
Qed.

Lemma cmd_screenshots_malformed (h : Host) (rt : Runtime) (args : Args)
    (bin : string) (supports : list (string * bool)) (value : string) :
  angles args = Some value ->
  has_pair_without_colon value = true ->
  exists tr out,
    cmd_screenshots h rt args bin supports = (tr, out)
    /\ subprocess_cmds tr = []
    /\ (out = Exit 1 \/ exists e, out = Raise e)
    /\ (path_exists h (expanduser h (input args)) = true ->
        (forall dir, mkdir_error h dir = None) ->
        exists msg, out = Raise (ValueError msg)).
Proof.
  intros Ha Hbad.
  destruct (select_shots_malformed rt args value Ha Hbad) as [msg Hsel].
  unfold cmd_screenshots, ensure_scad_file, ensure_dir. rewrite Hsel.
  destruct (path_exists h (expanduser h (input args))) eqn:Hin;
    cbn [negb bind ret emit print sys_exit raise app].
  - match goal with
    | |- context [mkdir_error h ?d] => destruct (mkdir_error h d) as [m|] eqn:Hmk
    end; cbn [bind ret emit print sys_exit raise app].
    + eexists _, _. split; [reflexivity|]. cbn.
      split; [reflexivity|]. split; [right; eexists; reflexivity|].
      intros _ Hdirs. rewrite Hdirs in Hmk. discriminate.
    + eexists _, _. split; [reflexivity|]. cbn.
      split; [reflexivity|]. split; [right; eexists; reflexivity|].
      intros _ _. eexists; reflexivity.
  - eexists _, _. split; [reflexivity|]. cbn.
    split; [reflexivity|]. split; [left; reflexivity|]. discriminate.
Qed.

(** The claim C6 fails as stated: by the time the angle list is parsed the
    help probe has already been run as a child process. *)
Lemma malformed_angles_after_probe :
  main example_host example_runtime (with_angles default_args (Some "0:0, 45"))
  = ([SubprocessRun [OPENSCAD_BIN; "--help"] None; Mkdir "~/.scad/renders/model"],
     Raise (ValueError "Invalid angle '45', expected az:el"))
  /\ has_pair_without_colon "0:0, 45" = true
  /\ subprocess_cmds
       (fst (main example_host example_runtime
               (with_angles default_args (Some "0:0, 45"))))
     = [[OPENSCAD_BIN; "--help"]].
Proof. repeat split. Qed.

(** C6 (amended): when the angle list has a non-blank field without a
    colon, [screenshots] ends with status 1 and never starts a render: the
    only child process that can have run is the help probe, which [main]
    runs before it dispatches.  Once the binary, the input file and the
    output directory are in place, the run ends in the [ValueError] right
    after that probe. *)
Theorem malformed_angles_no_render (h : Host) (rt : Runtime) (args : Args)
    (value : string) :
  command args = Screenshots ->
  angles args = Some value ->
  has_pair_without_colon value = true ->
  exists tr out,
    main h rt args = (tr, out)
    /\ exit_status out = 1
    /\ out <> Ret 0
    /\ (subprocess_cmds tr = []
        \/ exists bin, subprocess_cmds tr = [[bin; "--help"]])
    /\ (forall bin,
          (if truthy_str (openscad args) then openscad args else find_openscad h)
          = Some bin ->
          path_exists h (expanduser h (input args)) = true ->
          (forall dir, mkdir_error h dir = None) ->
          subprocess_cmds tr = [[bin; "--help"]]
          /\ exists msg, out = Raise (ValueError msg)).
Proof.
  intros Hcmd Ha Hbad.
  unfold main.
  destruct (if truthy_str (openscad args) then openscad args else find_openscad h)
    as [bin|] eqn:Hloc.
  2:{ eexists _, _. split; [reflexivity|]. cbn.
      repeat split; try discriminate; auto. }
  rewrite Hcmd.
  destruct (load_help_text_trace h bin) as [text Htext]. rewrite Htext.
  destruct (cmd_screenshots_malformed h rt args bin (detect_flags text) value Ha Hbad)
    as (tr & out & Hrun & Hnone & Hout & Hvalue).
  cbn [bind]. rewrite Hrun.
  assert (Hshape : exists out' : outcome Z,
            bind (tr, out) (fun _ : unit => ret 0) = (tr, out')
            /\ exit_status out' = 1 /\ out' <> Ret 0
            /\ (forall msg, out = Raise (ValueError msg) ->
                            out' = Raise (ValueError msg))).
  { destruct Hout as [->|[e ->]]; cbn.
    - exists (Exit 1). repeat split; discriminate.
    - exists (Raise e). repeat split; try discriminate. intros msg Hm.
      now inversion Hm. }
  destruct Hshape as (out' & Hbind & Hstatus & Hnot0 & Hraise).
  rewrite Hbind.
  eexists _, _. split; [reflexivity|].
  split; [exact Hstatus|]. split; [exact Hnot0|].
  cbn [app subprocess_cmds]. rewrite Hnone.
  split; [right; exists bin; reflexivity|].
  intros bin' Hbin' Hin Hdirs. inversion Hbin'; subst bin'.
  split; [reflexivity|].
  destruct (Hvalue Hin Hdirs) as [msg Hmsg]. exists msg. now apply Hraise.
Qed.

Lemma malformed_angles_no_render_witness :
  exists tr out,
    main example_host example_runtime (with_angles default_args (Some "45:30,90"))
    = (tr, out)
    /\ exit_status out = 1
    /\ subprocess_cmds tr = [[OPENSCAD_BIN; "--help"]]
    /\ exists msg, out = Raise (ValueError msg).
Proof.
  destruct (malformed_angles_no_render example_host example_runtime
              (with_angles default_args (Some "45:30,90")) "45:30,90")
    as (tr & out & Hmain & Hstatus & _ & _ & Hfull);
    [reflexivity | reflexivity | reflexivity |].
  exists tr, out. split; [exact Hmain|]. split; [exact Hstatus|].
  apply (Hfull OPENSCAD_BIN); reflexivity.
Defined.

(** ** Locating the renderer *)





(** ** The shape of formatted numbers and camera strings *)

Lemma string_forallb_app (p : ascii -> bool) (a b : string) :
  string_forallb p (a ++ b) = string_forallb p a && string_forallb p b.
Proof.
  induction a as [|c a IH]; cbn; [reflexivity|].
  now rewrite IH, andb_assoc.
Qed.

Lemma string_forallb_impl (p q : ascii -> bool) (s : string) :
  (forall c, p c = true -> q c = true) ->
  string_forallb p s = true -> string_forallb q s = true.
Proof.
  intros Hpq. induction s as [|c s IH]; cbn; [reflexivity|].
  intros H. apply andb_true_iff in H as [Hc Hs].
  now rewrite (Hpq c Hc), (IH Hs).
Qed.

Lemma string_forallb_not_in (p : ascii -> bool) (sep : ascii) (s : string) :
  p sep = false -> string_forallb p s = true -> char_in sep s = false.
Proof.
  intros Hsep. induction s as [|c s IH]; cbn; [reflexivity|].
  intros H. apply andb_true_iff in H as [Hc Hs]. rewrite (IH Hs), orb_false_r.
  destruct (Ascii.eqb_spec sep c) as [->|]; [congruence | reflexivity].
Qed.

Lemma digit_char_is_digit (d : Z) : is_digit (digit_char d) = true.
Proof.
  unfold digit_char. generalize (Z.to_nat d). intros n.
  do 10 (destruct n as [|n]; [reflexivity|]). now destruct n.
Qed.

Lemma string_of_uint_digits (d : Decimal.uint) :
  all_digits (NilEmpty.string_of_uint d) = true.
Proof. induction d; cbn; auto. Qed.

Lemma dec_string_digits (n : Z) : all_digits (dec_string n) = true.
Proof. apply string_of_uint_digits. Qed.

Lemma string_of_uint_nonempty (d : Decimal.uint) :
  d <> Decimal.Nil -> nonempty (NilEmpty.string_of_uint d) = true.
Proof. destruct d; [contradiction | reflexivity ..]. Qed.

Lemma dec_string_nonempty (n : Z) : nonempty (dec_string n) = true.
Proof.
  unfold dec_string. apply string_of_uint_nonempty.
  destruct (Z.to_N n) as [|p]; [discriminate|].
  apply Unsigned.to_uint_nonnil.
Qed.

Lemma frac_digits_digits (k : nat) (r : Z) : all_digits (frac_digits k r) = true.
Proof.
  induction k as [|k IH]; [reflexivity|].
  cbn [frac_digits]. unfold all_digits in *. cbn [string_forallb].
  now rewrite digit_char_is_digit, IH.
Qed.

Lemma frac_digits_length (k : nat) (r : Z) : String.length (frac_digits k r) = k.
Proof. induction k as [|k IH]; cbn [frac_digits String.length]; congruence. Qed.

Lemma split_once_app (sep : ascii) (a b : string) :
  char_in sep a = false ->
  split_once sep (a ++ String sep b) = Some (a, b).
Proof.
  induction a as [|c a IH]; cbn [append split_once char_in].
  - now rewrite Ascii.eqb_refl.
  - intros H. apply orb_false_iff in H as [Hc Ha].
    rewrite Ascii.eqb_sym, Hc, (IH Ha). reflexivity.
Qed.

Lemma fixed_digits_shape (k : nat) (n : Z) :
  unsigned_fixed_decimal (S k) (fixed_digits (S k) n) = true.
Proof.
  unfold fixed_digits, unsigned_fixed_decimal.
  set (ip := dec_string (n / 10 ^ Z.of_nat (S k))).
  set (fp := frac_digits (S k) (n mod 10 ^ Z.of_nat (S k))).
  assert (Hd : all_digits ip = true) by apply dec_string_digits.
  cbn [append].
  rewrite split_once_app
    by (apply (string_forallb_not_in is_digit); [reflexivity | exact Hd]).
  unfold ip at 1. rewrite dec_string_nonempty, Hd. unfold fp.
  rewrite frac_digits_digits, frac_digits_length, Nat.eqb_refl. reflexivity.
Qed.

Lemma fixed_digits_head (k : nat) (n : Z) :
  match fixed_digits k n with
  | String "-"%char rest => rest
  | _ => fixed_digits k n
  end = fixed_digits k n.
Proof.
  unfold fixed_digits.
  pose proof (dec_string_digits (n / 10 ^ Z.of_nat k)) as Hd.
  pose proof (dec_string_nonempty (n / 10 ^ Z.of_nat k)) as Hn.
  destruct (dec_string (n / 10 ^ Z.of_nat k)) as [|c ip']; [discriminate|].
  cbn [append]. unfold all_digits in Hd. cbn [string_forallb] in Hd.
  apply andb_true_iff in Hd as [Hc _].
  destruct c as [[] [] [] [] [] [] [] []]; try reflexivity; discriminate.
Qed.

Lemma format_fixed_shape (k : nat) (v : float) :
  is_finite v = true -> is_fixed_decimal (S k) (format_fixed (S k) v) = true.
Proof.
  destruct v as [s|s| |s m e]; try discriminate; intros _;
    cbn [format_fixed]; destruct s; cbn [sign_string append];
    unfold is_fixed_decimal; rewrite ?fixed_digits_head;
    apply fixed_digits_shape.
Qed.

Lemma split_on_no_sep (sep : ascii) (s : string) :
  char_in sep s = false -> split_on sep s = [s].
Proof.
  induction s as [|c s IH]; cbn [char_in split_on]; [reflexivity|].
  intros H. apply orb_false_iff in H as [Hc Hs].
  rewrite Ascii.eqb_sym, Hc, (IH Hs). reflexivity.
Qed.

Lemma split_on_app (sep : ascii) (a b : string) :
  char_in sep a = false ->
  split_on sep (a ++ String sep b) = a :: split_on sep b.
Proof.
  induction a as [|c a IH]; cbn [append char_in split_on].
  - now rewrite Ascii.eqb_refl.
  - intros H. apply orb_false_iff in H as [Hc Ha].
    rewrite Ascii.eqb_sym, Hc, (IH Ha). reflexivity.
Qed.

Lemma split_on_join (sep : ascii) (parts : list string) :
  parts <> [] ->
  Forall (fun p => char_in sep p = false) parts ->
  split_on sep (join (String sep "") parts) = parts.
Proof.
  induction parts as [|p rest IH]; [contradiction|].
  intros _ Hall. inversion Hall as [|? ? Hp Hrest]; subst.
  destruct rest as [|q rest].
  - cbn [join]. now apply split_on_no_sep.
  - change (join (String sep "") (p :: q :: rest))
      with (p ++ String sep (join (String sep "") (q :: rest))).
    rewrite (split_on_app sep p _ Hp), IH by (discriminate || assumption).
    reflexivity.
Qed.

Lemma fixed_digits_chars (k : nat) (n : Z) :
  string_forallb format_char (fixed_digits k n) = true.
Proof.
  assert (Hd : forall s, all_digits s = true -> string_forallb format_char s = true).
  { intros s. apply string_forallb_impl. intros c Hc. unfold format_char.
    now rewrite Hc. }
  unfold fixed_digits. rewrite string_forallb_app, (Hd _ (dec_string_digits _)).
  destruct k as [|k]; [reflexivity|].
  change ("." ++ ?s) with (String "."%char s). cbn [string_forallb andb].
  rewrite (Hd _ (frac_digits_digits _ _)). reflexivity.
Qed.

Lemma format_fixed_chars (k : nat) (v : float) :
  string_forallb format_char (format_fixed k v) = true.
Proof.
  destruct v as [s|s| |s m e]; cbn [format_fixed]; try reflexivity;
    destruct s; cbn [sign_string append string_forallb]; try reflexivity;
    rewrite ?fixed_digits_chars; reflexivity.
Qed.

Lemma format_fixed_no_comma (k : nat) (v : float) :
  char_in "," (format_fixed k v) = false.
Proof.
  apply (string_forallb_not_in format_char); [reflexivity|].
  apply format_fixed_chars.
Qed.

Lemma camera_string_components (dx dy dz d : float) :
  split_on "," (camera_string (dx, dy, dz) d)
  = [format_fixed 3 (fmul dx d); format_fixed 3 (fmul dy d);
     format_fixed 3 (fmul dz d); "0.000"; "0.000"; "0.000"].
Proof.
  unfold camera_string. cbn [app map].
  rewrite split_on_join; [reflexivity | discriminate |].
  repeat constructor; apply format_fixed_no_comma.
Qed.

Lemma dict_get_In {V : Type} (d : list (string * V)) (key : string) (v : V) :
  dict_get d key = Some v -> In (key, v) d.
Proof.
  induction d as [|[k w] d IH]; cbn [dict_get]; [discriminate|].
  destruct (String.eqb_spec k key) as [->|_].
  - intros H. inversion H. now left.
  - intros H. right. now apply IH.
Qed.

Lemma presets_integer_lists (name : string) (shots : list shot) (sh : shot) :
  dict_get PRESETS name = Some shots -> In sh shots ->
  is_integer_list 7 (snd sh) = true.
Proof.
  intros Hget Hin. apply dict_get_In in Hget.
  assert (Hall : forallb
            (fun entry : string * list shot =>
               forallb (fun s : shot => is_integer_list 7 (snd s)) (snd entry))
            PRESETS = true) by reflexivity.
  rewrite forallb_forall in Hall. specialize (Hall _ Hget). cbn [snd] in Hall.
  rewrite forallb_forall in Hall. now apply Hall.
Qed.

Lemma view_shots_returns (args : Args) (names : list string) :
  exists tr shots,
    view_shots args names = (tr, Ret shots)
    /\ Forall (fun sh : shot =>
                 exists direction, snd sh = camera_string direction (distance args))
              shots.
Proof.
  induction names as [|view rest (tr & shots & Hrun & Hall)]; cbn [view_shots].
  - exists [], []. split; [reflexivity | constructor].
  - destruct (dict_get VIEW_DIRECTIONS view) as [direction|]; rewrite Hrun.
    + eexists _, _. split; [reflexivity|]. constructor; [|exact Hall].
      now exists direction.
    + eexists _, _. split; [reflexivity | exact Hall].
Qed.

(** The claim C3 fails on the preset table: its camera texts have seven
    integer components, and the default run hands such a text on. *)
Lemma preset_camera_has_seven_fields :
  dict_get PRESETS "single" = Some [("iso", "0,0,0,55,0,25,0")]
  /\ In ("iso", "0,0,0,55,0,25,0") default_shots
  /\ split_on "," "0,0,0,55,0,25,0" = ["0"; "0"; "0"; "55"; "0"; "25"; "0"]
  /\ List.length (split_on "," "0,0,0,55,0,25,0") <> 6%nat
  /\ existsb (is_fixed_decimal 3) (split_on "," "0,0,0,55,0,25,0") = false
  /\ select_shots example_runtime default_args
     = ([], Ret [("iso", "0,0,0,55,0,25,0")]).
Proof.
  repeat split; try reflexivity.
  - now left.
  - discriminate.
Qed.

(** C3 (amended): a camera text built by [camera_string] has exactly six
    comma-separated components, the three eye products followed by three
    times "0.000", and every finite value is written with exactly three
    decimals.  The directives selected through angles, a turntable or named
    views are all of that kind.  The preset table is different: each of its
    camera texts is a list of seven unsigned integers, and these are what
    the preset and default strategies select. *)
Theorem camera_directive_shapes :
  (forall dx dy dz d : float,
     split_on "," (camera_string (dx, dy, dz) d)
     = [format_fixed 3 (fmul dx d); format_fixed 3 (fmul dy d);
        format_fixed 3 (fmul dz d); "0.000"; "0.000"; "0.000"])
  /\ (forall v : float,
        is_finite v = true -> is_fixed_decimal 3 (format_fixed 3 v) = true)
  /\ (forall name shots sh,
        dict_get PRESETS name = Some shots -> In sh shots ->
        is_integer_list 7 (snd sh) = true)
  /\ (forall rt args tr shots sh,
        select_shots rt args = (tr, Ret shots) -> In sh shots ->
        if truthy_str (angles args) || truthy_int (turntable args)
           || truthy_str (views args)
        then exists direction, snd sh = camera_string direction (distance args)
        else is_integer_list 7 (snd sh) = true).
Proof.
  split; [exact camera_string_components|].
  split; [exact (format_fixed_shape 2)|].
  split; [exact presets_integer_lists|].
  intros rt args tr shots sh Hsel Hin. unfold select_shots in Hsel.
  destruct (truthy_str (angles args)); cbn [orb].
  { destruct (parse_angles rt (str_or (angles args) "")) as [e|pairs];
      [discriminate|].
    inversion Hsel; subst. apply in_map_iff in Hin as ([az el] & <- & _).
    eexists. reflexivity. }
  destruct (truthy_int (turntable args)); cbn [orb].
  { inversion Hsel; subst. unfold turntable_shots in Hin.
    apply in_map_iff in Hin as (i & <- & _). eexists. reflexivity. }
  destruct (truthy_str (views args)); cbn [orb].
  { destruct (view_shots_returns args (view_names (str_or (views args) "")))
      as (tr' & shots' & Hrun & Hall).
    rewrite Hrun in Hsel. inversion Hsel; subst.
    rewrite Forall_forall in Hall. now apply Hall. }
  destruct (truthy_str (preset args)).
  { unfold preset_shots_of in Hsel.
    destruct (dict_get PRESETS (str_or (preset args) "")) as [[|s l]|] eqn:Hget;
      try discriminate.
    inversion Hsel; subst. exact (presets_integer_lists _ _ _ Hget Hin). }
  inversion Hsel; subst.
  apply (presets_integer_lists "single" default_shots sh); [reflexivity | exact Hin].
Qed.

Lemma camera_directive_shapes_witness :
  is_fixed_decimal 3 (format_fixed 3 (float_of_decimal (-20012345) 5)) = true
  /\ (exists direction,
        "200.000,0.000,0.000,0.000,0.000,0.000"
        = camera_string direction (distance default_args))
  /\ is_integer_list 7 "0,0,0,90,0,180,0" = true.
Proof.
  destruct camera_directive_shapes as (_ & Hfix & Hpre & Hsel).
  split; [apply Hfix; reflexivity|].
  split.
  - apply (Hsel example_runtime (with_angles default_args (Some "0:0")) []
             [("az0_el0", "200.000,0.000,0.000,0.000,0.000,0.000")]
             ("az0_el0", "200.000,0.000,0.000,0.000,0.000,0.000"));
      [reflexivity | now left].
  - refine (Hpre "ortho"
              [ ("front", "0,0,0,90,0,0,0"); ("back", "0,0,0,90,0,180,0");
                ("left", "0,0,0,90,0,270,0"); ("right", "0,0,0,90,0,90,0");
                ("top", "0,0,0,0,0,0,0"); ("bottom", "0,0,0,180,0,0,0") ]
              ("back", "0,0,0,90,0,180,0") eq_refl _).
    right. now left.
Defined.

(** ** Labels *)

Lemma list_ascii_of_string_app (a b : string) :
  list_ascii_of_string (a ++ b)
  = (list_ascii_of_string a ++ list_ascii_of_string b)%list.
Proof. induction a as [|c a IH]; cbn; [reflexivity | now rewrite IH]. Qed.

Lemma string_of_list_ascii_app (a b : list ascii) :
  string_of_list_ascii (a ++ b)%list
  = string_of_list_ascii a ++ string_of_list_ascii b.
Proof. induction a as [|c a IH]; cbn; [reflexivity | now rewrite IH]. Qed.

Lemma rstrip_snoc (chars s : string) (c : ascii) :
  rstrip chars (s ++ String c "")
  = if char_in c chars then rstrip chars s else s ++ String c "".
Proof.
  unfold rstrip, rstrip_list.
  rewrite list_ascii_of_string_app. cbn [list_ascii_of_string].
  rewrite rev_app_distr. cbn [rev app drop_while].
  destruct (char_in c chars); [reflexivity|].
  cbn [rev]. rewrite rev_involutive, string_of_list_ascii_app.
  now rewrite string_of_list_ascii_of_string.
Qed.

Lemma string_snoc_cases (s : string) :
  s = "" \/ exists init last, s = init ++ String last "".
Proof.
  induction s as [|c s [->|(init & last & ->)]].
  - now left.
  - right. exists "", c. reflexivity.
  - right. exists (String c init), last. reflexivity.
Qed.

Lemma rstrip_digits (chars s : string) :
  (forall c, is_digit c = true -> char_in c chars = false) ->
  all_digits s = true -> rstrip chars s = s.
Proof.
  intros Hchars Hd. destruct (string_snoc_cases s) as [->|(init & last & ->)];
    [reflexivity|].
  rewrite rstrip_snoc.
  unfold all_digits in Hd. rewrite string_forallb_app in Hd.
  apply andb_true_iff in Hd as [_ Hl]. cbn in Hl. rewrite andb_true_r in Hl.
  now rewrite (Hchars _ Hl).
Qed.

Lemma append_assoc (a b c : string) : (a ++ b) ++ c = a ++ (b ++ c).
Proof. induction a as [|x a IH]; cbn; [reflexivity | now rewrite IH]. Qed.

(** What the two [rstrip] calls leave of a one-decimal numeral. *)
Lemma rstrip_one_decimal (ip : string) (d : ascii) :
  all_digits ip = true -> is_digit d = true ->
  rstrip "." (rstrip "0" (ip ++ "." ++ String d ""))
  = if Ascii.eqb d "0" then ip else ip ++ "." ++ String d "".
Proof.
  intros Hip Hd.
  change (ip ++ "." ++ String d "") with (ip ++ (String "."%char "" ++ String d "")).
  rewrite <- append_assoc, rstrip_snoc. cbn [char_in]. rewrite orb_false_r.
  destruct (Ascii.eqb_spec d "0") as [->|Hne].
  - rewrite rstrip_snoc. change (char_in "." "0") with false. cbv iota.
    rewrite rstrip_snoc. change (char_in "." ".") with true. cbv iota.
    apply rstrip_digits; [|exact Hip].
    intros c Hc. cbn [char_in]. rewrite orb_false_r.
    destruct (Ascii.eqb_spec c "."); [subst; discriminate | reflexivity].
  - rewrite rstrip_snoc. cbn [char_in]. rewrite orb_false_r.
    destruct (Ascii.eqb_spec d "."); [subst; discriminate | reflexivity].
Qed.

Lemma replace_char_app (a b : ascii) (s t : string) :
  replace_char a b (s ++ t) = replace_char a b s ++ replace_char a b t.
Proof. induction s as [|c s IH]; cbn; [reflexivity | now rewrite IH]. Qed.

Lemma replace_char_digits (s : string) :
  all_digits s = true -> replace_char "." "p" s = s.
Proof.
  induction s as [|c s IH]; cbn; [reflexivity|].
  intros H. apply andb_true_iff in H as [Hc Hs]. rewrite (IH Hs).
  destruct (Ascii.eqb_spec c "."); [subst; discriminate | reflexivity].
Qed.

Lemma digit_char_zero (d : Z) :
  0 <= d < 10 -> Ascii.eqb (digit_char d) "0" = (d =? 0).
Proof.
  intros Hd.
  assert (H : In d [0; 1; 2; 3; 4; 5; 6; 7; 8; 9]) by (cbn; lia).
  cbn in H. repeat (destruct H as [<-|H]; [reflexivity|]). contradiction.
Qed.

Lemma format_one_decimal (v : float) :
  is_finite v = true ->
  format_fixed 1 (fabs v)
  = dec_string (tenths v / 10) ++ "." ++ String (digit_char (tenths v mod 10)) "".
Proof.
  assert (Hfd : forall n, fixed_digits 1 n
            = dec_string (n / 10) ++ "." ++ String (digit_char (n mod 10)) "").
  { intros n. unfold fixed_digits. cbn [frac_digits Z.of_nat].
    change (10 ^ Z.pos (Pos.of_succ_nat 0)) with 10.
    change (10 ^ 0) with 1. rewrite Z.div_1_r, Z.mod_mod by lia. reflexivity. }
  destruct v as [s|s| |s m e]; try discriminate; intros _;
    cbn [fabs SFabs format_fixed sign_string tenths]; apply Hfd.
Qed.

(** The label of a finite value in closed form. *)
Lemma label_closed_form (v : float) :
  is_finite v = true ->
  label_from_value v
  = (if fltb v fzero then "m" else "")
    ++ dec_string (tenths v / 10) ++ label_suffix (tenths v).
Proof.
  intros Hfin. unfold label_from_value. rewrite (format_one_decimal v Hfin).
  pose proof (dec_string_digits (tenths v / 10)) as Hd.
  pose proof (dec_string_nonempty (tenths v / 10)) as Hn.
  assert (Hr : 0 <= tenths v mod 10 < 10) by (apply Z.mod_pos_bound; lia).
  rewrite (rstrip_one_decimal _ _ Hd (digit_char_is_digit _)).
  rewrite (digit_char_zero _ Hr). unfold label_suffix.
  destruct (tenths v mod 10 =? 0).
  - replace (String.eqb (dec_string (tenths v / 10)) "") with false
      by (symmetry; apply negb_true_iff; exact Hn).
    rewrite (replace_char_digits _ Hd). f_equal.
    clear. induction (dec_string (tenths v / 10)); cbn; congruence.
  - set (ip := dec_string (tenths v / 10)) in *.
    pose proof (digit_char_is_digit (tenths v mod 10)) as Hdig.
    set (dc := digit_char (tenths v mod 10)) in *.
    replace (String.eqb (ip ++ "." ++ String dc "") "")
      with false by (destruct ip; [discriminate | reflexivity]).
    f_equal. rewrite replace_char_app, (replace_char_digits _ Hd). f_equal.
    cbn [append replace_char].
    change (Ascii.eqb "." ".") with true. cbv iota.
    destruct (Ascii.eqb_spec dc ".") as [E|_];
      [rewrite E in Hdig; discriminate | reflexivity].
Qed.

Lemma round_half_even_div_nonneg (a b : Z) :
  0 <= a -> 0 < b -> 0 <= round_half_even_div a b.
Proof.
  intros Ha Hb. unfold round_half_even_div.
  assert (0 <= a / b) by (apply Z.div_pos; lia).
  destruct (2 * (a mod b) ?= b); [destruct (Z.even (a / b))| |]; lia.
Qed.

Lemma scaled_round_nonneg (k : nat) (m : positive) (e : Z) :
  0 <= scaled_round k m e.
Proof.
  unfold scaled_round.
  assert (0 < 10 ^ Z.of_nat k) by (apply Z.pow_pos_nonneg; lia).
  destruct (0 <=? e) eqn:He.
  - apply Z.leb_le in He. assert (0 < 2 ^ e) by (apply Z.pow_pos_nonneg; lia). nia.
  - apply Z.leb_gt in He. apply round_half_even_div_nonneg; [nia|].
    apply Z.pow_pos_nonneg; lia.
Qed.

Lemma tenths_nonneg (v : float) : 0 <= tenths v.
Proof. destruct v; cbn [tenths]; try lia. apply scaled_round_nonneg. Qed.

Lemma dec_string_inj (a b : Z) :
  0 <= a -> 0 <= b -> dec_string a = dec_string b -> a = b.
Proof.
  intros Ha Hb H. unfold dec_string in H.
  assert (Hu : N.to_uint (Z.to_N a) = N.to_uint (Z.to_N b)).
  { pose proof (NilEmpty.usu (N.to_uint (Z.to_N a))) as H1.
    pose proof (NilEmpty.usu (N.to_uint (Z.to_N b))) as H2.
    rewrite H in H1. congruence. }
  apply Unsigned.to_uint_inj in Hu. lia.
Qed.

Lemma digits_then_suffix (a b sa sb : string) :
  all_digits a = true -> all_digits b = true ->
  no_digit_head sa -> no_digit_head sb ->
  a ++ sa = b ++ sb -> a = b /\ sa = sb.
Proof.
  revert b. induction a as [|c a IH]; intros [|d b] Ha Hb Hsa Hsb H;
    cbn [append] in H.
  - now split.
  - subst sa. cbn in Hsa. apply andb_true_iff in Hb as [Hd _]. congruence.
  - subst sb. cbn in Hsb. apply andb_true_iff in Ha as [Hc _]. congruence.
  - inversion H; subst.
    apply andb_true_iff in Ha as [_ Ha]. apply andb_true_iff in Hb as [_ Hb].
    destruct (IH b Ha Hb Hsa Hsb) as [-> ->]; [assumption | now split].
Qed.

Lemma label_suffix_head (t : Z) : no_digit_head (label_suffix t).
Proof. unfold label_suffix. destruct (t mod 10 =? 0); reflexivity. Qed.

Lemma digit_char_inj (a b : Z) :
  0 <= a < 10 -> 0 <= b < 10 -> digit_char a = digit_char b -> a = b.
Proof.
  intros Ha Hb.
  assert (HA : In a [0; 1; 2; 3; 4; 5; 6; 7; 8; 9]) by (cbn; lia).
  assert (HB : In b [0; 1; 2; 3; 4; 5; 6; 7; 8; 9]) by (cbn; lia).
  cbn in HA, HB.
  repeat (destruct HA as [<-|HA]; [
    repeat (destruct HB as [<-|HB]; [first [reflexivity | discriminate]|]);
    contradiction |]).
  contradiction.
Qed.

Lemma label_suffix_inj (t1 t2 : Z) :
  label_suffix t1 = label_suffix t2 -> t1 mod 10 = t2 mod 10.
Proof.
  unfold label_suffix.
  assert (H1 : 0 <= t1 mod 10 < 10) by (apply Z.mod_pos_bound; lia).
  assert (H2 : 0 <= t2 mod 10 < 10) by (apply Z.mod_pos_bound; lia).
  destruct (Z.eqb_spec (t1 mod 10) 0) as [E1|E1];
    destruct (Z.eqb_spec (t2 mod 10) 0) as [E2|E2];
    try discriminate; [congruence|].
  intros H. inversion H. now apply digit_char_inj.
Qed.

Lemma sign_prefix_inj (b1 b2 : bool) (x1 x2 : string) :
  (exists c r, x1 = String c r /\ is_digit c = true) ->
  (exists c r, x2 = String c r /\ is_digit c = true) ->
  (if b1 then "m" else "") ++ x1 = (if b2 then "m" else "") ++ x2 ->
  b1 = b2 /\ x1 = x2.
Proof.
  intros (c1 & r1 & -> & H1) (c2 & r2 & -> & H2) H.
  destruct b1, b2; cbn [append] in H.
  - inversion H. now split.
  - inversion H. subst. discriminate.
  - inversion H. subst. discriminate.
  - now split.
Qed.

Lemma label_body_head (t : Z) :
  exists c r, dec_string (t / 10) ++ label_suffix t = String c r
              /\ is_digit c = true.
Proof.
  pose proof (dec_string_digits (t / 10)) as Hd.
  pose proof (dec_string_nonempty (t / 10)) as Hn.
  destruct (dec_string (t / 10)) as [|c r]; [discriminate|].
  exists c, (r ++ label_suffix t). split; [reflexivity|].
  now apply andb_true_iff in Hd as [Hc _].
Qed.

(** Two finite values share a label exactly when they agree on being
    negative and on their rounded number of tenths. *)
Lemma label_eq_iff (v1 v2 : float) :
  is_finite v1 = true -> is_finite v2 = true ->
  (label_from_value v1 = label_from_value v2
   <-> fltb v1 fzero = fltb v2 fzero /\ tenths v1 = tenths v2).
Proof.
  intros H1 H2. rewrite (label_closed_form v1 H1), (label_closed_form v2 H2).
  split.
  - intros H.
    apply sign_prefix_inj in H as [Hs Hb]; try apply label_body_head.
    split; [exact Hs|].
    apply digits_then_suffix in Hb as [Hq Hr];
      try apply dec_string_digits; try apply label_suffix_head.
    apply label_suffix_inj in Hr.
    pose proof (tenths_nonneg v1). pose proof (tenths_nonneg v2).
    apply dec_string_inj in Hq; try (apply Z.div_pos; lia).
    rewrite (Z.div_mod (tenths v1) 10), (Z.div_mod (tenths v2) 10) by lia.
    congruence.
  - intros [-> ->]. reflexivity.
Qed.

Lemma label_chars_finite (v : float) :
  is_finite v = true ->
  string_forallb finite_label_char (label_from_value v) = true.
Proof.
  intros Hfin. rewrite (label_closed_form v Hfin).
  assert (Hd : string_forallb finite_label_char (dec_string (tenths v / 10)) = true).
  { apply (string_forallb_impl is_digit); [|apply dec_string_digits].
    intros c Hc. unfold finite_label_char. now rewrite Hc. }
  rewrite !string_forallb_app, Hd.
  assert (Hs : string_forallb finite_label_char (label_suffix (tenths v)) = true).
  { unfold label_suffix. destruct (tenths v mod 10 =? 0); [reflexivity|].
    cbn [string_forallb]. unfold finite_label_char at 2.
    now rewrite digit_char_is_digit. }
  rewrite Hs. now destruct (fltb v fzero).
Qed.

Lemma label_chars (v : float) :
  string_forallb label_char (label_from_value v) = true.
Proof.
  destruct (is_finite v) eqn:Hfin.
  - apply (string_forallb_impl finite_label_char); [|now apply label_chars_finite].
    intros c Hc. unfold finite_label_char in Hc. unfold label_char.
    apply orb_true_iff in Hc as [Hc|Hc]; [now rewrite Hc, orb_true_r|].
    cbn [char_in] in Hc. rewrite orb_false_r in Hc.
    apply orb_true_iff in Hc as [Hc|Hc]; apply Ascii.eqb_eq in Hc; now subst.
  - destruct v as [s|[]| |s m e]; try discriminate; reflexivity.
Qed.

Lemma one_decimal_grid (k : Z) :
  -3600 <= k <= 3600 -> one_decimal_ok k = true.
Proof.
  intros Hk.
  assert (Hall : forallb (fun i => one_decimal_ok (i - 3600)) (range 7201) = true)
    by (vm_compute; reflexivity).
  rewrite forallb_forall in Hall.
  replace k with (k + 3600 - 3600) by lia. apply Hall, range_In. lia.
Qed.

(** The claim C4 fails as stated: the label keeps one decimal, so distinct
    angles that round to the same tenth collide; 45.25 and 45.2 are both
    labelled "45p2", and so are 0.04 and 0. *)
Lemma labels_collide_after_rounding :
  label_from_value (float_of_decimal 4525 2) = "45p2"
  /\ label_from_value (float_of_decimal 452 1) = "45p2"
  /\ float_of_decimal 4525 2 <> float_of_decimal 452 1
  /\ SFeqb (float_of_decimal 4525 2) (float_of_decimal 452 1) = false
  /\ label_from_value (float_of_decimal 4 2) = label_from_value (float_of_Z 0)
  /\ SFeqb (float_of_decimal 4 2) (float_of_Z 0) = false.
Proof. repeat split; try reflexivity. vm_compute. discriminate. Qed.

(** C4 (amended): [label_from_value] is a function of its argument whose
    output uses only lower-case letters and digits (for a finite value only
    digits, "m" and "p").  Two finite values get the same label exactly
    when both are negative or neither is, and their absolute values round,
    ties to even, to the same number of tenths.  Hence the labels of the
    angles written with one decimal between -360.0 and 360.0 are pairwise
    distinct.  -12.50 is labelled "m12p5", 0 is labelled "0" and 30.0 is
    labelled "30". *)
Theorem label_from_value_one_decimal :
  (forall v, string_forallb label_char (label_from_value v) = true)
  /\ (forall v, is_finite v = true ->
        string_forallb finite_label_char (label_from_value v) = true)
  /\ (forall v1 v2, is_finite v1 = true -> is_finite v2 = true ->
        (label_from_value v1 = label_from_value v2
         <-> fltb v1 fzero = fltb v2 fzero /\ tenths v1 = tenths v2))
  /\ (forall k1 k2, -3600 <= k1 <= 3600 -> -3600 <= k2 <= 3600 ->
        label_from_value (one_decimal k1) = label_from_value (one_decimal k2) ->
        k1 = k2)
  /\ label_from_value (float_of_decimal (-1250) 2) = "m12p5"
  /\ label_from_value (float_of_Z 0) = "0"
  /\ label_from_value (float_of_decimal 300 1) = "30".
Proof.
  split; [exact label_chars|].
  split; [exact label_chars_finite|].
  split; [exact label_eq_iff|].
  split; [|repeat split].
  intros k1 k2 Hk1 Hk2 Hlabel.
  pose proof (one_decimal_grid k1 Hk1) as G1.
  pose proof (one_decimal_grid k2 Hk2) as G2.
  unfold one_decimal_ok in G1, G2.
  apply andb_true_iff in G1 as [G1 S1]. apply andb_true_iff in G1 as [F1 T1].
  apply andb_true_iff in G2 as [G2 S2]. apply andb_true_iff in G2 as [F2 T2].
  apply (label_eq_iff _ _ F1 F2) in Hlabel as [Hs Ht].
  apply Z.eqb_eq in T1, T2. apply Bool.eqb_prop in S1, S2.
  rewrite S1, S2 in Hs. rewrite T1, T2 in Ht.
  destruct (Z.ltb_spec k1 0), (Z.ltb_spec k2 0); try discriminate; lia.
Qed.

Lemma label_from_value_one_decimal_witness :
  string_forallb finite_label_char (label_from_value (float_of_decimal (-1250) 2)) = true
  /\ (label_from_value (float_of_decimal 4525 2) = label_from_value (float_of_decimal 452 1)
      <-> fltb (float_of_decimal 4525 2) fzero = fltb (float_of_decimal 452 1) fzero
          /\ tenths (float_of_decimal 4525 2) = tenths (float_of_decimal 452 1))
  /\ (label_from_value (one_decimal 225) = label_from_value (one_decimal 225) ->
      225 = 225).
Proof.
  destruct label_from_value_one_decimal as (_ & Hfin & Hiff & Hgrid & _).
  split; [apply Hfin; reflexivity|].
  split; [apply Hiff; reflexivity|].
  apply Hgrid; lia.
Defined.

(** ** Scaling of the camera position *)











(** * Properties of the command layer *)

(** ** Exit status *)





















(** ** Rendering the shots one after the other *)

Lemma subprocess_cmds_app (t1 t2 : list event) :
  subprocess_cmds (t1 ++ t2) = (subprocess_cmds t1 ++ subprocess_cmds t2)%list.
Proof.
  induction t1 as [|e t1 IH]; [reflexivity|].
  destruct e; cbn; now rewrite IH.
Qed.

Lemma capture_ok (h : Host) (args : Args) (bin : string)
    (supports : list (string * bool)) (scad_file : string) (s : shot) :
  render_status h (shot_cmd h args bin supports scad_file s) 0 ->
  exists tr,
    capture h args bin supports scad_file (screenshots_out_dir h args scad_file) s
    = (tr, Ret tt)
    /\ subprocess_cmds tr = [shot_cmd h args bin supports scad_file s].
Proof.
  destruct s as [label camera]. intros (out & err & Hrun).
  unfold capture, run, print, emit. unfold shot_cmd in Hrun. cbn [fst snd] in Hrun.
  cbn [bind app]. rewrite Hrun. cbn [Z.eqb negb bind app ret].
  eexists. split; reflexivity.
Qed.

Lemma capture_fails (h : Host) (args : Args) (bin : string)
    (supports : list (string * bool)) (scad_file : string) (s : shot) (rc : Z) :
  render_status h (shot_cmd h args bin supports scad_file s) rc -> rc <> 0 ->
  exists tr,
    capture h args bin supports scad_file (screenshots_out_dir h args scad_file) s
    = (tr, Exit rc)
    /\ subprocess_cmds tr = [shot_cmd h args bin supports scad_file s].
Proof.
  destruct s as [label camera]. intros (out & err & Hrun) Hrc.
  unfold capture, run, print, emit. unfold shot_cmd in Hrun. cbn [fst snd] in Hrun.
  cbn [bind app]. rewrite Hrun.
  destruct (Z.eqb_spec rc 0); [contradiction|]. cbn [negb bind app sys_exit].
  eexists. split; reflexivity.
Qed.

Lemma for_each_capture_ok (h : Host) (args : Args) (bin : string)
    (supports : list (string * bool)) (scad_file : string) (shots : list shot) :
  (forall s, In s shots ->
             render_status h (shot_cmd h args bin supports scad_file s) 0) ->
  exists tr,
    for_each shots
      (capture h args bin supports scad_file (screenshots_out_dir h args scad_file))
    = (tr, Ret tt)
    /\ subprocess_cmds tr = map (shot_cmd h args bin supports scad_file) shots.
Proof.
  induction shots as [|s shots IH]; intros Hok; cbn [for_each map].
  - exists []. split; reflexivity.
  - destruct (capture_ok h args bin supports scad_file s) as (tr1 & H1 & C1);
      [apply Hok; now left|].
    destruct IH as (tr2 & H2 & C2); [intros; apply Hok; now right|].
    rewrite H1. cbn [bind]. rewrite H2.
    eexists. split; [reflexivity|]. now rewrite subprocess_cmds_app, C1, C2.
Qed.

Lemma for_each_capture_stops (h : Host) (args : Args) (bin : string)
    (supports : list (string * bool)) (scad_file : string)
    (done : list shot) (s : shot) (rest : list shot) (rc : Z) :
  (forall s', In s' done ->
              render_status h (shot_cmd h args bin supports scad_file s') 0) ->
  render_status h (shot_cmd h args bin supports scad_file s) rc -> rc <> 0 ->
  exists tr,
    for_each (done ++ s :: rest)
      (capture h args bin supports scad_file (screenshots_out_dir h args scad_file))
    = (tr, Exit rc)
    /\ subprocess_cmds tr
       = map (shot_cmd h args bin supports scad_file) (done ++ [s]).
Proof.
  induction done as [|d done IH]; intros Hok Hs Hrc; cbn [app for_each map].
  - destruct (capture_fails h args bin supports scad_file s rc Hs Hrc)
      as (tr & H & C).
    rewrite H. cbn [bind]. exists tr. split; [reflexivity | exact C].
  - destruct (capture_ok h args bin supports scad_file d) as (tr1 & H1 & C1);
      [apply Hok; now left|].
    destruct IH as (tr2 & H2 & C2); [intros; apply Hok; now right | auto | auto |].
    rewrite H1. cbn [bind]. rewrite H2.
    eexists. split; [reflexivity|]. now rewrite subprocess_cmds_app, C1, C2.
Qed.

Lemma bind_ret_eq {A B : Type} (tr : list event) (a : A) (f : A -> M B) :
  bind (tr, Ret a) f = ((tr ++ fst (f a))%list, snd (f a)).
Proof. cbn [bind]. now destruct (f a). Qed.

Lemma view_shots_quiet (args : Args) (names : list string) :
  subprocess_cmds (fst (view_shots args names)) = [].
Proof.
  induction names as [|view rest IH]; cbn [view_shots]; [reflexivity|].
  destruct (view_shots args rest) as [tr [shots|c|e]];
    destruct (dict_get VIEW_DIRECTIONS view);
    cbn [bind ret print emit fst snd subprocess_cmds app] in *;
    rewrite ?subprocess_cmds_app, ?IH; reflexivity.
Qed.

Lemma select_shots_quiet (rt : Runtime) (args : Args) :
  subprocess_cmds (fst (select_shots rt args)) = [].
Proof.
  unfold select_shots.
  destruct (truthy_str (angles args)).
  { destruct (parse_angles rt _); reflexivity. }
  destruct (truthy_int (turntable args)); [reflexivity|].
  destruct (truthy_str (views args)); [apply view_shots_quiet|].
  destruct (truthy_str (preset args)); [|reflexivity].
  unfold preset_shots_of. destruct (dict_get PRESETS _) as [[|s l]|]; reflexivity.
Qed.

(** [screenshots] renders the selected shots in order, one child process
    per shot, and stops at the first render that ends with a non-zero
    status: that status becomes the exit status and the remaining shots are
    never started.  When every render succeeds, each shot is rendered
    exactly once and the handler returns. *)
Theorem screenshots_fail_fast (h : Host) (rt : Runtime) (args : Args)
    (bin : string) (supports : list (string * bool))
    (trs : list event) (shots : list shot) :
  path_exists h (expanduser h (input args)) = true ->
  mkdir_error h (screenshots_out_dir h args (expanduser h (input args))) = None ->
  select_shots rt args = (trs, Ret shots) ->
  let cmd_of := shot_cmd h args bin supports (expanduser h (input args)) in
  let result := cmd_screenshots h rt args bin supports in
  ((forall s, In s shots -> render_status h (cmd_of s) 0) ->
     snd result = Ret tt /\ subprocess_cmds (fst result) = map cmd_of shots)
  /\ (forall done s rest rc,
        shots = (done ++ s :: rest)%list ->
        (forall s', In s' done -> render_status h (cmd_of s') 0) ->
        render_status h (cmd_of s) rc -> rc <> 0 ->
        snd result = Exit rc
        /\ subprocess_cmds (fst result) = map cmd_of (done ++ [s])).
Proof.
  intros Hin Hmk Hsel cmd_of result.
  pose proof (select_shots_quiet rt args) as Hq. rewrite Hsel in Hq. cbn [fst] in Hq.
  assert (Hres : result
            = ((Mkdir (screenshots_out_dir h args (expanduser h (input args))) :: trs
                ++ fst (screenshots_body h args bin supports
                          (expanduser h (input args)) shots))%list,
               snd (screenshots_body h args bin supports
                      (expanduser h (input args)) shots))).
  { unfold result, cmd_screenshots, ensure_scad_file, ensure_dir.
    rewrite Hin. cbn [negb]. unfold ret at 1. rewrite bind_ret_eq. cbv beta.
    fold (screenshots_out_dir h args (expanduser h (input args))).
    rewrite Hmk. unfold emit, ret. rewrite !bind_ret_eq. cbv beta.
    rewrite Hsel, bind_ret_eq. reflexivity. }
  rewrite Hres. clear Hres. cbn [fst snd]. split.
  - intros Hok.
    destruct (for_each_capture_ok h args bin supports _ shots Hok) as (tr & Hrun & Hc).
    destruct shots as [|s0 shots0]; unfold screenshots_body.
    + cbn. rewrite subprocess_cmds_app, Hq. split; reflexivity.
    + unfold print, emit. rewrite !bind_ret_eq. cbv beta.
      rewrite Hrun, !bind_ret_eq. cbn [fst snd app]. split; [reflexivity|].
      cbn [subprocess_cmds]. rewrite subprocess_cmds_app, Hq.
      cbn [subprocess_cmds app].
      rewrite subprocess_cmds_app, Hc. cbn. now rewrite List.app_nil_r.
  - intros done s rest rc -> Hok Hs Hrc.
    destruct (for_each_capture_stops h args bin supports _ done s rest rc Hok Hs Hrc)
      as (tr & Hrun & Hc).
    unfold screenshots_body.
    destruct (done ++ s :: rest)%list as [|s0 shots0] eqn:E;
      [now destruct done|].
    unfold print, emit. rewrite !bind_ret_eq. cbv beta.
    rewrite Hrun. cbn [bind fst snd app]. split; [reflexivity|].
    cbn [subprocess_cmds]. rewrite subprocess_cmds_app, Hq.
    cbn [subprocess_cmds app].
    rewrite Hc, ?List.app_nil_r. reflexivity.
Qed.

Ltac step_binds :=
  repeat (progress (cbn [fst snd app]; rewrite ?bind_ret_eq; cbv beta)).

(** ** The scratch file of [validate] *)

(** [validate] creates its scratch file before it renders and removes it
    exactly when the render ended with status 0 and [--keep] was not
    given; a failed render leaves the file behind and its status becomes
    the exit status. *)
Theorem validate_scratch_file (h : Host) (args : Args) (bin : string)
    (supports : list (string * bool)) (tmp : string) (rc : Z) :
  path_exists h (expanduser h (input args)) = true ->
  mkdir_error h (validate_out_dir h args) = None ->
  named_temporary_file h
    (path_stem h (expanduser h (input args)) ++ "_validate_") ".stl"
    (validate_out_dir h args) = inr tmp ->
  render_status h
    (validate_cmd args bin supports (expanduser h (input args)) tmp) rc ->
  let result := cmd_validate h args bin supports in
  snd result = (if rc =? 0 then Ret tt else Exit rc)
  /\ subprocess_cmds (fst result)
     = [validate_cmd args bin supports (expanduser h (input args)) tmp]
  /\ In (CreateTemp tmp) (fst result)
  /\ (In (Unlink tmp) (fst result) <-> rc = 0 /\ keep args = false)
  /\ (forall p, In (Unlink p) (fst result) -> p = tmp).
Proof.
  intros Hin Hmk Htmp (out & err & Hrun) result.
  set (cmd := validate_cmd args bin supports (expanduser h (input args)) tmp) in *.
  assert (Hres : result
            = ((Mkdir (validate_out_dir h args) :: CreateTemp tmp
                :: Print ("+ " ++ join " " (map shlex_quote cmd))
                :: SubprocessRun cmd (Some (get_scad_env h))
                :: (if rc =? 0
                    then if keep args
                         then [Print ("Validation output kept at " ++ tmp)]
                         else [Unlink tmp; Print "Validation succeeded"]
                    else []))%list,
               if rc =? 0 then Ret tt else Exit rc)).
  { unfold result, cmd_validate, ensure_scad_file, ensure_dir.
    rewrite Hin. cbn [negb]. unfold ret at 1. rewrite bind_ret_eq. cbv beta.
    fold (validate_out_dir h args). rewrite Hmk, Htmp.
    unfold run, print, emit, ret. step_binds.
    change (add_defines (bin :: render_flags supports) (define args)
            ++ ["-o"; tmp; expanduser h (input args)])%list with cmd.
    rewrite Hrun.
    destruct (Z.eqb_spec rc 0) as [->|Hrc]; cbn [negb sys_exit];
      [destruct (keep args)|]; step_binds; reflexivity. }
  rewrite Hres. clear Hres. cbn [fst snd].
  split; [reflexivity|].
  split; [destruct (rc =? 0); [destruct (keep args)|]; reflexivity|].
  split; [cbn [In]; tauto|].
  destruct (Z.eqb_spec rc 0) as [->|Hrc]; [destruct (keep args)|];
    (split; [|intros p]); cbn [In];
    intuition (try discriminate; try congruence).
Qed.



(** ** A missing input file *)

(** When the input file does not exist, every subcommand stops right after
    the help probe: the tool prints "Input SCAD not found" with the expanded
    path and exits with status 1; no directory is created and nothing is
    rendered. *)
Theorem missing_input_exits_1 (h : Host) (rt : Runtime) (args : Args) (bin : string) :
  located h args = Some bin ->
  path_exists h (expanduser h (input args)) = false ->
  main h rt args
  = ([SubprocessRun [bin; "--help"] None;
      Print ("Input SCAD not found: " ++ expanduser h (input args))],
     Exit 1).
Proof.
  intros Hloc Hin. unfold main. fold (located h args). rewrite Hloc.
  destruct (load_help_text_trace h bin) as [text ->]. rewrite bind_ret_eq. cbv beta.
  assert (Hcmd : match command args with
                 | Validate => cmd_validate h args bin (detect_flags text)
                 | Stl => cmd_stl h args bin (detect_flags text)
                 | Screenshots => cmd_screenshots h rt args bin (detect_flags text)
                 end
                 = ([Print ("Input SCAD not found: " ++ expanduser h (input args))],
                    Exit 1)).
  { destruct (command args);
      unfold cmd_validate, cmd_stl, cmd_screenshots, ensure_scad_file;
      rewrite Hin; reflexivity. }
  rewrite Hcmd. reflexivity.
Qed.

(** ** Locating the binary *)

(** [find_openscad] never answers with a path that does not exist: its
    answer is the non-empty value of [OPENSCAD_BIN] or the default install
    path, and that path exists.  A usable [OPENSCAD_BIN] wins over the
    default path. *)
Theorem find_openscad_sound (h : Host) :
  (forall p, find_openscad h = Some p ->
     path_exists h p = true
     /\ (environ_get h "OPENSCAD_BIN" = Some p /\ p <> "" \/ p = OPENSCAD_BIN))
  /\ (forall e, environ_get h "OPENSCAD_BIN" = Some e -> e <> "" ->
        path_exists h e = true -> find_openscad h = Some e)
  /\ ((forall e, environ_get h "OPENSCAD_BIN" = Some e ->
                 e = "" \/ path_exists h e = false) ->
      path_exists h OPENSCAD_BIN = true ->
      find_openscad h = Some OPENSCAD_BIN).
Proof.
  unfold find_openscad.
  destruct (environ_get h "OPENSCAD_BIN") as [e|] eqn:Henv; cbn [truthy_str].
  - destruct (String.eqb_spec e "") as [->|Hne]; cbn [negb andb];
      [|destruct (path_exists h e) eqn:He];
      destruct (path_exists h OPENSCAD_BIN) eqn:Hd;
      (split; [intros p Hp; inversion Hp; subst; split; auto|]);
      (split; [intros e' He' Hne' Hex; inversion He'; subst; congruence|]);
      intros Hall Hdef; try congruence;
      destruct (Hall e eq_refl); congruence.
  - destruct (path_exists h OPENSCAD_BIN) eqn:Hd;
      (split; [intros p Hp; inversion Hp; subst; split; auto|]);
      (split; [intros e' He'; discriminate|]);
      intros Hall Hdef; congruence.
Qed.

(** ** Named views and presets *)

Lemma view_shots_spec (args : Args) (names : list string) :
  view_shots args names
  = (map unknown_view_warning (filter (fun n => negb (known_view n)) names),
     Ret (flat_map (view_shot_of args) names)).
Proof.
  induction names as [|view rest IH]; cbn [view_shots]; [reflexivity|].
  rewrite IH. unfold known_view, view_shot_of. cbn [filter flat_map].
  destruct (dict_get VIEW_DIRECTIONS view);
    cbn [bind ret print emit negb app map]; now rewrite ?List.app_nil_r.
Qed.

Lemma view_shot_labels (args : Args) (names : list string) :
  map fst (flat_map (view_shot_of args) names) = filter known_view names.
Proof.
  induction names as [|view rest IH]; [reflexivity|].
  change (flat_map (view_shot_of args) (view :: rest))
    with (view_shot_of args view ++ flat_map (view_shot_of args) rest)%list.
  cbn [filter]. rewrite List.map_app. unfold view_shot_of at 1, known_view at 1.
  destruct (dict_get VIEW_DIRECTIONS view); cbn [map app fst];
    [f_equal|]; exact IH.
Qed.

Lemma strip_idempotent_parts (value : string) (n : string) :
  In n (view_names value) -> n <> "" /\ exists field, In field (split_on "," value) /\ n = strip field.
Proof.
  unfold view_names. intros H. apply in_map_iff in H as (field & <- & Hf).
  apply filter_In in Hf as [Hin Hne]. apply negb_true_iff in Hne.
  split; [now apply String.eqb_neq | now exists field].
Qed.

(** With [--views] in charge, a name that is not in the view table costs a
    warning line and nothing else: the names are the stripped, non-blank
    fields of the list, the shots are those of the known names in the order
    given, labelled by the name, one warning is printed per unknown name,
    and the selection never fails.  The known names are iso, front, back,
    left, right, top and bottom. *)
Theorem named_views_skip_unknown (rt : Runtime) (args : Args) (value : string) :
  truthy_str (angles args) = false ->
  truthy_int (turntable args) = false ->
  views args = Some value ->
  value <> "" ->
  exists shots,
    select_shots rt args
    = (map unknown_view_warning
         (filter (fun n => negb (known_view n)) (view_names value)),
       Ret shots)
    /\ map fst shots = filter known_view (view_names value)
    /\ (forall sh, In sh shots ->
          exists direction,
            dict_get VIEW_DIRECTIONS (fst sh) = Some direction
            /\ snd sh = camera_string direction (distance args))
    /\ (forall n, In n (view_names value) ->
          n <> "" /\ exists field, In field (split_on "," value) /\ n = strip field)
    /\ (forall n, known_view n = true
                  <-> In n ["iso"; "front"; "back"; "left"; "right"; "top"; "bottom"]).
Proof.
  intros Ha Ht Hv Hne. exists (flat_map (view_shot_of args) (view_names value)).
  split.
  { unfold select_shots. rewrite Ha, Ht, Hv. cbn [truthy_str str_or].
    destruct (String.eqb_spec value ""); [contradiction|]. cbn [negb].
    apply view_shots_spec. }
  split; [apply view_shot_labels|].
  split.
  { intros sh Hin. apply in_flat_map in Hin as (n & _ & Hin).
    unfold view_shot_of in Hin.
    destruct (dict_get VIEW_DIRECTIONS n) as [direction|] eqn:Hd; [|contradiction].
    destruct Hin as [<-|[]]. exists direction. now split. }
  split; [apply strip_idempotent_parts|].
  intros n. unfold known_view. split.
  - intros H. destruct (dict_get VIEW_DIRECTIONS n) eqn:Hd; [|discriminate].
    apply dict_get_In in Hd. apply (in_map fst) in Hd. exact Hd.
  - intros H. cbn [In] in H.
    repeat (destruct H as [<-|H]; [reflexivity|]). contradiction.
Qed.

Lemma named_views_skip_unknown_witness :
  exists shots,
    select_shots example_runtime (with_views default_args (Some "top, side ,,front"))
    = ([Print "Unknown view 'side', skipping"], Ret shots)
    /\ map fst shots = ["top"; "front"].
Proof.
  destruct (named_views_skip_unknown example_runtime
              (with_views default_args (Some "top, side ,,front"))
              "top, side ,,front")
    as (shots & Hsel & Hlabels & _); [reflexivity | reflexivity | reflexivity | discriminate |].
  exists shots. split; [exact Hsel | exact Hlabels].
Defined.

(** A preset name is looked up in the table: each of the four names
    single, iso, ortho and standard yields its non-empty list of shots and
    prints nothing; any other name prints the list of available presets and
    exits with status 1. *)
Theorem preset_lookup (name : string) :
  dict_keys PRESETS = ["single"; "iso"; "ortho"; "standard"]
  /\ (In name (dict_keys PRESETS) ->
        exists shots,
          preset_shots_of name = ([], Ret shots)
          /\ dict_get PRESETS name = Some shots /\ shots <> [])
  /\ (~ In name (dict_keys PRESETS) ->
        preset_shots_of name
        = ([Print ("Unknown preset '" ++ name
                   ++ "'. Available: single, iso, ortho, standard")],
           Exit 1)).
Proof.
  split; [reflexivity|]. split.
  - intros H. cbn in H.
    repeat (destruct H as [<-|H];
            [eexists; split; [reflexivity|]; split; [reflexivity | discriminate]|]).
    contradiction.
  - intros Hnot. unfold preset_shots_of.
    destruct (dict_get PRESETS name) as [shots|] eqn:Hget; [|reflexivity].
    exfalso. apply Hnot. apply dict_get_In in Hget.
    apply (in_map fst) in Hget. exact Hget.
Qed.

Lemma preset_lookup_witness :
  preset_shots_of "isometric"
  = ([Print "Unknown preset 'isometric'. Available: single, iso, ortho, standard"],
     Exit 1).
Proof.
  destruct (preset_lookup "isometric") as (_ & _ & Hunknown).
  apply Hunknown. cbn. intuition discriminate.
Defined.

(** ** An empty shot list *)

(** When the selection yields no shot at all (every named view unknown, or
    an angle list of blank fields), [screenshots] reports "No screenshot
    views generated" and the tool ends with status 0: the output directory
    has been created, but besides the help probe no child process is
    started. *)
Theorem empty_shot_list_succeeds (h : Host) (rt : Runtime) (args : Args)
    (bin : string) (trs : list event) :
  command args = Screenshots ->
  located h args = Some bin ->
  path_exists h (expanduser h (input args)) = true ->
  mkdir_error h (screenshots_out_dir h args (expanduser h (input args))) = None ->
  select_shots rt args = (trs, Ret []) ->
  main h rt args
  = ((SubprocessRun [bin; "--help"] None
      :: Mkdir (screenshots_out_dir h args (expanduser h (input args)))
      :: trs ++ [Print "No screenshot views generated"])%list,
     Ret 0)
  /\ exit_status (snd (main h rt args)) = 0
  /\ subprocess_cmds (fst (main h rt args)) = [[bin; "--help"]].
Proof.
  intros Hcmd Hloc Hin Hmk Hsel.
  assert (Hq : subprocess_cmds trs = []).
  { pose proof (select_shots_quiet rt args) as Hq. now rewrite Hsel in Hq. }
  assert (Hmain : main h rt args
            = ((SubprocessRun [bin; "--help"] None
                :: Mkdir (screenshots_out_dir h args (expanduser h (input args)))
                :: trs ++ [Print "No screenshot views generated"])%list,
               Ret 0)).
  { unfold main. fold (located h args). rewrite Hloc, Hcmd.
    destruct (load_help_text_trace h bin) as [text ->]. rewrite bind_ret_eq. cbv beta.
    unfold cmd_screenshots, ensure_scad_file, ensure_dir. rewrite Hin. cbn [negb].
    unfold ret. rewrite bind_ret_eq. cbv beta zeta.
    fold (screenshots_out_dir h args (expanduser h (input args))).
    rewrite Hmk, Hsel.
    unfold print, emit. step_binds. now rewrite ?List.app_nil_r. }
  rewrite Hmain. split; [reflexivity|]. split; [reflexivity|].
  cbn [fst subprocess_cmds]. rewrite subprocess_cmds_app, Hq. reflexivity.
Qed.

(** ** The library path given to the renderer *)

Lemma split_on_fields_no_sep (sep : ascii) (s : string) :
  Forall (fun p => char_in sep p = false) (split_on sep s).
Proof.
  induction s as [|c s IH]; cbn [split_on].
  - repeat constructor.
  - destruct (Ascii.eqb_spec c sep) as [->|Hne].
    + constructor; [reflexivity | exact IH].
    + destruct (split_on sep s) as [|field fields].
      * repeat constructor. cbn. rewrite orb_false_r.
        destruct (Ascii.eqb_spec sep c); congruence.
      * inversion IH; subst. constructor; [|assumption].
        cbn. destruct (Ascii.eqb_spec sep c); [congruence | assumption].
Qed.

Lemma existsb_eqb_In (x : string) (l : list string) :
  existsb (String.eqb x) l = true <-> In x l.
Proof.
  rewrite existsb_exists. split.
  - intros (y & Hin & Heq). apply String.eqb_eq in Heq. now subst.
  - intros Hin. exists x. split; [exact Hin | apply String.eqb_refl].
Qed.

(** The [OPENSCADPATH] handed to the renderer, read as a colon-separated
    list: it always contains the SCAD home directory, it keeps every
    non-empty entry of the inherited value in order, it has no empty entry,
    and the home directory is put in front only when it is not listed
    already.  (The home directory is assumed non-empty and free of colons.) *)
Theorem scad_env_contains_home (h : Host) :
  SCAD_HOME h <> "" ->
  char_in ":" (SCAD_HOME h) = false ->
  let entries := split_on ":" (get_scad_env h) in
  In (SCAD_HOME h) entries
  /\ (forall p, In p (inherited_entries h) -> In p entries)
  /\ ~ In "" entries
  /\ (truthy_str (environ_get h "OPENSCADPATH") = false -> entries = [SCAD_HOME h])
  /\ (truthy_str (environ_get h "OPENSCADPATH") = true ->
        entries = if existsb (String.eqb (SCAD_HOME h)) (inherited_entries h)
                  then inherited_entries h
                  else SCAD_HOME h :: inherited_entries h).
Proof.
  intros Hne Hcolon entries.
  assert (Hparts : Forall (fun p => char_in ":" p = false) (inherited_entries h)).
  { unfold inherited_entries. apply Forall_forall. intros p Hp.
    apply filter_In in Hp as [Hp _].
    pose proof (split_on_fields_no_sep ":" (str_or (environ_get h "OPENSCADPATH") "")) as Hall.
    rewrite Forall_forall in Hall. now apply Hall. }
  assert (Hnonempty : ~ In "" (inherited_entries h)).
  { unfold inherited_entries. intros Hin. apply filter_In in Hin as [_ Hin]. discriminate. }
  assert (Hentries : entries
            = if truthy_str (environ_get h "OPENSCADPATH")
              then if existsb (String.eqb (SCAD_HOME h)) (inherited_entries h)
                   then inherited_entries h
                   else SCAD_HOME h :: inherited_entries h
              else [SCAD_HOME h]).
  { unfold entries, get_scad_env. fold (inherited_entries h).
    destruct (truthy_str (environ_get h "OPENSCADPATH")).
    - destruct (existsb (String.eqb (SCAD_HOME h)) (inherited_entries h)) eqn:Hex.
      + apply split_on_join; [|exact Hparts].
        apply existsb_eqb_In in Hex. intros E. rewrite E in Hex. contradiction.
      + apply split_on_join; [discriminate|]. now constructor.
    - now apply split_on_no_sep. }
  rewrite Hentries.
  destruct (truthy_str (environ_get h "OPENSCADPATH")) eqn:Ht.
  - destruct (existsb (String.eqb (SCAD_HOME h)) (inherited_entries h)) eqn:Hex.
    + apply existsb_eqb_In in Hex. repeat split; auto. discriminate.
    + repeat split; auto; try discriminate.
      * now left.
      * intros p Hp. now right.
      * intros [E|E]; [now apply Hne | now apply Hnonempty].
  - repeat split; auto; try discriminate.
    + now left.
    + intros p Hp. exfalso. unfold inherited_entries in Hp.
      destruct (environ_get h "OPENSCADPATH") as [v|]; cbn in Ht, Hp.
      * destruct (String.eqb_spec v ""); [|discriminate].
        cbn in Hp. tauto.
      * tauto.
    + intros [E|[]]. now apply Hne.
Qed.

(** ** Well-formed angle lists *)

Lemma parse_angle_parts_spec (rt : Runtime) (parts : list string)
    (acc pairs : list (float * float)) :
  parse_angle_parts rt parts acc = inr pairs
  <-> exists parsed,
        pairs = (acc ++ parsed)%list
        /\ Forall2 (reads_as rt)
             (map strip (filter (fun p => negb (String.eqb (strip p) "")) parts))
             parsed.
Proof.
  revert acc. induction parts as [|part rest IH]; intros acc;
    cbn [parse_angle_parts filter map].
  - split.
    + intros H. inversion H. exists []. split; [now rewrite List.app_nil_r | constructor].
    + intros (parsed & -> & Hall). inversion Hall. now rewrite List.app_nil_r.
  - destruct (String.eqb (strip part) "") eqn:Eblank; cbn [negb]; [apply IH|].
    cbn [map]. split.
    + intros H.
      destruct (split_once ":" (strip part)) as [[az_str el_str]|] eqn:Esplit;
        [|discriminate].
      destruct (py_float rt az_str) as [|az] eqn:Eaz; [discriminate|].
      destruct (py_float rt el_str) as [|el] eqn:Eel; [discriminate|].
      apply IH in H as (parsed & -> & Hall).
      exists ((az, el) :: parsed). split; [now rewrite <- List.app_assoc|].
      constructor; [|exact Hall]. exists az_str, el_str. auto.
    + intros (parsed & -> & Hall). inversion Hall as [|? [az el] ? ? Hread Hrest]; subst.
      destruct Hread as (az_str & el_str & Hsplit & Haz & Hel). cbn [fst snd] in *.
      rewrite Hsplit, Haz, Hel. apply IH. exists l'. split; [|exact Hrest].
      now rewrite <- List.app_assoc.
Qed.

(** [parse_angles] succeeds exactly when every non-blank field of the
    comma-separated list reads as a pair, and its result then holds one
    pair per non-blank field, in the order of the list: blank fields are
    skipped, the text before the first colon is the azimuth and everything
    after it the elevation. *)
Theorem parse_angles_reads_fields (rt : Runtime) (value : string)
    (pairs : list (float * float)) :
  (parse_angles rt value = inr pairs
   <-> Forall2 (reads_as rt) (angle_fields value) pairs)
  /\ (parse_angles rt value = inr pairs ->
        List.length pairs = List.length (angle_fields value)
        /\ has_pair_without_colon value = false).
Proof.
  assert (Hiff : parse_angles rt value = inr pairs
                 <-> Forall2 (reads_as rt) (angle_fields value) pairs).
  { unfold parse_angles, angle_fields. rewrite parse_angle_parts_spec. split.
    - intros (parsed & -> & Hall). exact Hall.
    - intros Hall. exists pairs. now split. }
  split; [exact Hiff|].
  intros H. split.
  - apply Hiff in H. symmetry. eapply Forall2_length, H.
  - destruct (has_pair_without_colon value) eqn:Hbad; [|reflexivity].
    destruct (parse_angle_parts_error rt _ Hbad []) as [msg Hmsg].
    unfold parse_angles in H. congruence.
Qed.

Lemma parse_angles_reads_fields_witness :
  parse_angles example_runtime " 45:30 ,, 90.5:-12.50,"
  = inr [(float_of_Z 45, float_of_Z 30);
         (float_of_decimal 905 1, float_of_decimal (-1250) 2)].
Proof.
  apply (parse_angles_reads_fields example_runtime).
  repeat constructor.
  - exists "45", "30". repeat split.
  - exists "90.5", "-12.50". repeat split.
Defined.

(** ** Options are passed only when the binary advertises them *)

Lemma supports_detected (help_text flag : string) :
  supports_flag (detect_flags help_text) flag = true ->
  In flag known_flags /\ str_in flag help_text = true.
Proof.
  unfold supports_flag, detect_flags, known_flags. cbn [map dict_get].
  repeat match goal with
  | |- context [String.eqb ?k flag] =>
      destruct (String.eqb_spec k flag) as [<-|_];
      [intros H; split; [cbn; tauto | exact H]|]
  end.
  discriminate.
Qed.

Lemma in_add_defines (cmd defines : list string) (x : string) :
  In x (add_defines cmd defines) -> In x cmd \/ x = "-D" \/ In x defines.
Proof.
  unfold add_defines. intros H. apply in_app_or in H as [H|H]; [now left|].
  apply in_flat_map in H as (d & Hd & [<-|[<-|[]]]); auto.
Qed.

Lemma in_render_flags (help_text x : string) :
  In x (render_flags (detect_flags help_text)) -> advertised_option help_text x.
Proof.
  unfold render_flags. intros H. apply in_app_or in H as [H|H].
  - destruct (supports_flag _ "--render") eqn:E; [|contradiction].
    destruct H as [<-|[]]. apply supports_detected in E as [Hk Hs].
    exists "--render". auto.
  - destruct (supports_flag _ "--backend") eqn:E; [|contradiction].
    apply supports_detected in E as [Hk Hs].
    destruct H as [<-|[<-|[]]]; exists "--backend"; auto.
Qed.

(** Whatever the help text says, a screenshot command consists of the
    binary, the [-D] definitions, [-o] with the output and input files, and
    options whose flag token occurs in the help text: the tool never passes
    an option the binary does not advertise.  With an empty help text (the
    probe could not be run) the command is just the binary, the definitions
    and the files. *)
Theorem no_unadvertised_option (h : Host) (args : Args)
    (bin help_text scad_file out_file camera : string) :
  (forall x,
     In x (screenshot_cmd h args bin (detect_flags help_text) scad_file out_file camera) ->
     plain_argument args bin scad_file out_file x \/ advertised_option help_text x)
  /\ screenshot_cmd h args bin (detect_flags "") scad_file out_file camera
     = (bin :: flat_map (fun d => ["-D"; d]) (define args)
        ++ ["-o"; out_file; scad_file])%list.
Proof.
  split.
  2:{ unfold screenshot_cmd, render_flags, add_defines.
      change (supports_flag (detect_flags "") "--render") with false.
      change (supports_flag (detect_flags "") "--backend") with false.
      change (supports_flag (detect_flags "") "--autocenter") with false.
      change (supports_flag (detect_flags "") "--viewall") with false.
      change (supports_flag (detect_flags "") "--camera") with false.
      change (supports_flag (detect_flags "") "--imgsize") with false.
      change (supports_flag (detect_flags "") "--colorscheme") with false.
      change (supports_flag (detect_flags "") "--projection") with false.
      change (supports_flag (detect_flags "") "--view") with false.
      rewrite andb_false_r. cbn [app]. reflexivity. }
  intros x Hx. unfold screenshot_cmd in Hx.
  apply in_app_or in Hx as [Hx|Hx].
  { apply in_add_defines in Hx as [Hx|[Hx|Hx]].
    - cbn [app] in Hx. destruct Hx as [<-|Hx]; [left; now left|].
      right. now apply in_render_flags.
    - left. right. now left.
    - left. right. right. now left. }
  do 6 (apply in_app_or in Hx as [Hx|Hx];
        [ match type of Hx with
          | In _ (if supports_flag _ ?f then _ else _) =>
              destruct (supports_flag (detect_flags help_text) f) eqn:E;
              [|contradiction];
              destruct Hx as [<-|[]]; apply supports_detected in E as [Hk Hs];
              right; exists f; auto
          end |]).
  apply in_app_or in Hx as [Hx|Hx].
  { destruct (truthy_str (view_opts args)); cbn [andb] in Hx; [|contradiction].
    destruct (supports_flag _ "--view") eqn:E; [|contradiction].
    destruct Hx as [<-|[]]. apply supports_detected in E as [Hk Hs].
    right. exists "--view". auto. }
  left. unfold plain_argument. cbn [In] in Hx. intuition.
Qed.

(** The probe tests for substrings, and "--view" is a substring of
    "--viewall": a binary whose help text mentions [--viewall] is taken to
    support [--view] as well, whether or not it has that option.  No other
    two of the nine tokens overlap in this way. *)
Theorem viewall_implies_view (help_text : string) :
  (supports_flag (detect_flags help_text) "--viewall" = true ->
   supports_flag (detect_flags help_text) "--view" = true)
  /\ (forall a b, In a known_flags -> In b known_flags -> a <> b ->
        str_in a b = true -> a = "--view" /\ b = "--viewall").
Proof.
  split.
  - intros H. apply supports_detected in H as [_ H].
    apply str_in_spec in H as (pre & post & ->).
    change (supports_flag (detect_flags (pre ++ "--viewall" ++ post)) "--view")
      with (str_in "--view" (pre ++ "--viewall" ++ post)).
    apply str_in_spec. exists pre, ("all" ++ post).
    f_equal.
  - intros a b Ha Hb Hne Hin. cbn [known_flags In] in Ha, Hb.
    repeat (destruct Ha as [<-|Ha];
            [repeat (destruct Hb as [<-|Hb];
                     [first [now split | contradiction | discriminate]|]);
             contradiction|]).
    contradiction.
Qed.

(** ** Integers as floats, and their labels *)

Lemma digits2_pos_size (p : positive) : digits2_pos p = Pos.size p.
Proof. induction p; cbn; congruence. Qed.

Lemma digits2_pos_bound (p : positive) (k : positive) :
  Zpos p < 2 ^ Zpos k -> (digits2_pos p <= k)%positive.
Proof.
  intros H. rewrite digits2_pos_size.
  pose proof (Pos.size_le p) as Hle.
  assert (Hz : 2 ^ Zpos (Pos.size p) <= 2 * Zpos p).
  { rewrite <- Pos2Z.inj_pow. change (2 * Zpos p) with (Zpos p~0). lia. }
  assert (Hlt : 2 ^ Zpos (Pos.size p) < 2 ^ (Zpos k + 1)).
  { rewrite Z.pow_add_r by lia. lia. }
  apply Z.pow_lt_mono_r_iff in Hlt; lia.
Qed.

Lemma iter_xO_digits (p d : positive) :
  digits2_pos (Pos.iter xO p d) = (digits2_pos p + d)%positive.
Proof.
  induction d as [|d IH] using Pos.peano_ind.
  - cbn. now rewrite Pos.add_1_r.
  - rewrite Pos.iter_succ. cbn [digits2_pos]. rewrite IH. lia.
Qed.

Lemma iter_xO_value (p d : positive) :
  Zpos (Pos.iter xO p d) = Zpos p * 2 ^ Zpos d.
Proof.
  induction d as [|d IH] using Pos.peano_ind.
  - cbn. lia.
  - rewrite Pos.iter_succ, Pos2Z.inj_xO, IH, Pos2Z.inj_succ, Z.pow_succ_r by lia.
    lia.
Qed.

Lemma binary_round_aux_canonical (s : bool) (m : positive) (e : Z) :
  digits2_pos m = 53%positive -> emin prec emax <= e -> e <= emax - prec ->
  binary_round_aux prec emax s (Zpos m) e loc_Exact = S754_finite s m e.
Proof.
  intros Hd Hlow Hhigh. unfold binary_round_aux, shr_fexp.
  cbn [Zdigits2 shr_record_of_loc]. rewrite Hd.
  replace (fexp prec emax (53 + e) - e) with 0
    by (unfold fexp, emin, prec, emax in *; lia).
  cbn [shr round_nearest_even loc_of_shr_record shr_m Zdigits2]. rewrite Hd.
  replace (fexp prec emax (53 + e) - e) with 0
    by (unfold fexp, emin, prec, emax in *; lia).
  cbn [shr shr_m]. apply Z.leb_le in Hhigh. now rewrite Hhigh.
Qed.

(** The float of a positive integer below [2^53]: a 53-bit mantissa that is
    the integer shifted left, and the matching non-positive exponent. *)
Lemma binary_round_integer (s : bool) (p : positive) :
  Zpos p < 2 ^ 53 ->
  exists m d,
    binary_round prec emax s p 0 = S754_finite s m (- d)
    /\ 0 <= d /\ Zpos m = Zpos p * 2 ^ d.
Proof.
  intros Hp. pose proof (digits2_pos_bound p 53 Hp) as Hd.
  unfold binary_round, shl_align.
  replace (fexp prec emax (Zpos (digits2_pos p) + 0) - 0)
    with (Zpos (digits2_pos p) - 53)
    by (unfold fexp, emin, prec, emax; lia).
  destruct (Zpos (digits2_pos p) - 53) as [|q|q] eqn:E; try lia.
  - exists p, 0. rewrite binary_round_aux_canonical;
      [ | lia | unfold emin, prec, emax; lia | unfold prec, emax; lia ].
    split; [reflexivity|]. split; lia.
  - exists (Pos.iter xO p q), (Zpos q).
    replace (fexp prec emax (Zpos (digits2_pos p) + 0)) with (- Zpos q)
      by (unfold fexp, emin, prec, emax; lia).
    rewrite binary_round_aux_canonical;
      [ | rewrite iter_xO_digits; lia | unfold emin, prec, emax; lia
        | unfold prec, emax; lia ].
    split; [reflexivity|]. split; [lia | apply iter_xO_value].
Qed.

Lemma scaled_round_integer (m : positive) (d n : Z) :
  0 <= d -> Zpos m = n * 2 ^ d -> scaled_round 1 m (- d) = 10 * n.
Proof.
  intros Hd Hm. unfold scaled_round. change (10 ^ Z.of_nat 1) with 10.
  destruct (Z.leb_spec 0 (- d)).
  - assert (d = 0) by lia. subst d. change (- 0) with 0.
    rewrite Z.pow_0_r in *. lia.
  - rewrite Z.opp_involutive, Hm. unfold round_half_even_div.
    assert (Hpos : 0 < 2 ^ d) by (apply Z.pow_pos_nonneg; lia).
    replace (n * 2 ^ d * 10) with (10 * n * 2 ^ d) by lia.
    rewrite Z.div_mul, Z.mod_mul by lia.
    destruct (Z.compare_spec (2 * 0) (2 ^ d)); lia.
Qed.

Lemma append_empty_r (s : string) : s ++ "" = s.
Proof. induction s; cbn; congruence. Qed.

Lemma label_of_signed_integer (s : bool) (p : positive) :
  Zpos p < 2 ^ 53 ->
  label_from_value (binary_round prec emax s p 0)
  = (if s then "m" else "") ++ dec_string (Zpos p).
Proof.
  intros Hp. destruct (binary_round_integer s p Hp) as (m & d & -> & Hd & Hm).
  rewrite label_closed_form by reflexivity.
  cbn [tenths]. rewrite (scaled_round_integer m d (Zpos p) Hd Hm).
  unfold label_suffix.
  replace (10 * Zpos p / 10) with (Zpos p)
    by (rewrite Z.mul_comm, Z.div_mul; lia).
  replace (10 * Zpos p mod 10) with 0
    by (rewrite Z.mul_comm, Z.mod_mul; lia).
  cbn [Z.eqb]. rewrite append_empty_r. destruct s; reflexivity.
Qed.

(** The label of a whole number of degrees is its decimal numeral, with
    "m" in front when it is negative: no decimal suffix, no rounding, for
    every integer of magnitude below [2^53]. *)
Theorem label_of_integer (n : Z) :
  - 2 ^ 53 < n < 2 ^ 53 ->
  label_from_value (float_of_Z n)
  = (if n <? 0 then "m" else "") ++ dec_string (Z.abs n).
Proof.
  intros Hn. destruct n as [|p|p]; [reflexivity| |].
  - apply (label_of_signed_integer false); lia.
  - apply (label_of_signed_integer true). lia.
Qed.

Lemma label_of_integer_witness :
  label_from_value (float_of_Z (-135)) = "m" ++ dec_string 135.
Proof. apply (label_of_integer (-135)). lia. Defined.

(** ** The labels of a turntable sweep *)









(** ** The camera of the named views *)

Lemma fmul_unit_normal (su s : bool) (m : positive) (e : Z) :
  digits2_pos m = 53%positive -> emin prec emax <= e -> e <= emax - prec ->
  fmul (S754_finite su 4503599627370496 (-52)) (S754_finite s m e)
  = S754_finite (xorb su s) m e.
Proof.
  intros Hd Hlow Hhigh. unfold fmul. cbn [SFmul Pos.mul].
  unfold binary_round_aux, shr_fexp.
  cbn [Zdigits2 digits2_pos shr_record_of_loc]. rewrite Hd.
  cbn [PosDef.Pos.succ].
  replace (fexp prec emax (105 + (-52 + e)) - (-52 + e)) with 52
    by (unfold fexp, emin, prec, emax in *; lia).
  cbn [shr iter_pos shr_1 orb].
  cbn [round_nearest_even loc_of_shr_record shr_m Zdigits2]. rewrite Hd.
  replace (fexp prec emax (53 + (-52 + e + 52)) - (-52 + e + 52)) with 0
    by (unfold fexp, emin, prec, emax in *; lia).
  cbn [shr shr_m].
  replace (-52 + e + 52) with e by lia.
  apply Z.leb_le in Hhigh. now rewrite Hhigh.
Qed.

(** At a positive normal distance [d], written [D] with three decimals,
    each named view places the eye on its axis at exactly that distance and
    looks at the origin: front is (0, -D, 0), back (0, D, 0), left
    (-D, 0, 0), right (D, 0, 0), top (0, 0, D), bottom (0, 0, -D), and iso
    is (D, D, D). *)
Theorem named_view_cameras (d : float) :
  positive_normal d = true ->
  let D := format_fixed 3 d in
  is_fixed_decimal 3 D = true
  /\ view_camera "iso" d = D ++ "," ++ D ++ "," ++ D ++ ",0.000,0.000,0.000"
  /\ view_camera "front" d = "0.000,-" ++ D ++ ",0.000,0.000,0.000,0.000"
  /\ view_camera "back" d = "0.000," ++ D ++ ",0.000,0.000,0.000,0.000"
  /\ view_camera "left" d = "-" ++ D ++ ",0.000,0.000,0.000,0.000,0.000"
  /\ view_camera "right" d = D ++ ",0.000,0.000,0.000,0.000,0.000"
  /\ view_camera "top" d = "0.000,0.000," ++ D ++ ",0.000,0.000,0.000"
  /\ view_camera "bottom" d = "0.000,0.000,-" ++ D ++ ",0.000,0.000,0.000".
Proof.
  intros H D. destruct d as [| | |[] m e]; try discriminate.
  cbn [positive_normal] in H.
  apply andb_true_iff in H as [H Hhigh]. apply andb_true_iff in H as [Hd Hlow].
  apply Pos.eqb_eq in Hd. apply Z.leb_le in Hlow, Hhigh.
  pose proof (fmul_unit_normal false false m e Hd Hlow Hhigh) as Hone.
  pose proof (fmul_unit_normal true false m e Hd Hlow Hhigh) as Hminus.
  cbn [xorb] in Hone, Hminus.
  split; [apply (format_fixed_shape 2); reflexivity|].
  unfold view_camera. cbn [dict_get VIEW_DIRECTIONS String.eqb Ascii.eqb Bool.eqb].
  unfold camera_string, f_one, f_minus_one. rewrite ?Hone, ?Hminus.
  repeat split; cbn [app map join format_fixed sign_string fmul SFmul xorb fzero];
    fold D; rewrite ?append_assoc; reflexivity.
Qed.

Lemma named_view_cameras_witness :
  view_camera "bottom" f_200 = "0.000,0.000,-200.000,0.000,0.000,0.000".
Proof.
  destruct (named_view_cameras f_200) as (_ & _ & _ & _ & _ & _ & _ & H);
    [reflexivity|].
  exact H.
Defined.


Lemma screenshots_fail_fast_witness :
  snd (cmd_screenshots failing_host example_runtime
         (with_preset default_args (Some "standard")) OPENSCAD_BIN []) = Exit 3
  /\ subprocess_cmds
       (fst (cmd_screenshots failing_host example_runtime
               (with_preset default_args (Some "standard")) OPENSCAD_BIN []))
     = [[OPENSCAD_BIN; "-o"; "~/.scad/renders/model/model_front.png"; "model.scad"]].
Proof.
  destruct (screenshots_fail_fast failing_host example_runtime
              (with_preset default_args (Some "standard")) OPENSCAD_BIN [] []
              [ ("front", "0,0,0,90,0,0,0"); ("back", "0,0,0,90,0,180,0");
                ("left", "0,0,0,90,0,270,0"); ("right", "0,0,0,90,0,90,0");
                ("top", "0,0,0,0,0,0,0"); ("bottom", "0,0,0,180,0,0,0");
                ("iso", "0,0,0,55,0,25,0") ])
    as [_ Hstop]; [reflexivity | reflexivity | reflexivity |].
  apply (Hstop [] ("front", "0,0,0,90,0,0,0")
           [ ("back", "0,0,0,90,0,180,0");
             ("left", "0,0,0,90,0,270,0"); ("right", "0,0,0,90,0,90,0");
             ("top", "0,0,0,0,0,0,0"); ("bottom", "0,0,0,180,0,0,0");
             ("iso", "0,0,0,55,0,25,0") ] 3).
  - reflexivity.
  - intros s' [].
  - exists "", "". reflexivity.
  - discriminate.
Defined.

Lemma validate_scratch_file_witness :
  snd (cmd_validate example_host default_args OPENSCAD_BIN []) = Ret tt
  /\ In (Unlink "~/.scad/tmp/model_validate_tmp.stl")
        (fst (cmd_validate example_host default_args OPENSCAD_BIN [])).
Proof.
  destruct (validate_scratch_file example_host default_args OPENSCAD_BIN []
              "~/.scad/tmp/model_validate_tmp.stl" 0)
    as (Hout & _ & _ & Hunlink & _);
    [reflexivity | reflexivity | reflexivity | exists "", ""; reflexivity |].
  split; [exact Hout|]. apply Hunlink. split; reflexivity.
Defined.

Lemma missing_input_exits_1_witness :
  main bare_host example_runtime (with_openscad default_args (Some "openscad"))
  = ([SubprocessRun ["openscad"; "--help"] None;
      Print "Input SCAD not found: model.scad"],
     Exit 1).
Proof.
  apply (missing_input_exits_1 bare_host example_runtime
           (with_openscad default_args (Some "openscad")) "openscad");
    reflexivity.
Defined.

Lemma find_openscad_sound_witness :
  path_exists example_host OPENSCAD_BIN = true
  /\ find_openscad example_host = Some OPENSCAD_BIN.
Proof.
  destruct (find_openscad_sound example_host) as (Hsound & _ & Hdefault).
  split.
  - apply (Hsound OPENSCAD_BIN). reflexivity.
  - apply Hdefault; [intros e He; discriminate He | reflexivity].
Defined.

Lemma empty_shot_list_succeeds_witness :
  main example_host example_runtime (with_views default_args (Some "side, under"))
  = ([SubprocessRun [OPENSCAD_BIN; "--help"] None;
      Mkdir "~/.scad/renders/model";
      Print "Unknown view 'side', skipping";
      Print "Unknown view 'under', skipping";
      Print "No screenshot views generated"],
     Ret 0).
Proof.
  destruct (empty_shot_list_succeeds example_host example_runtime
              (with_views default_args (Some "side, under")) OPENSCAD_BIN
              [Print "Unknown view 'side', skipping";
               Print "Unknown view 'under', skipping"])
    as [Hmain _];
    [reflexivity | reflexivity | reflexivity | reflexivity | reflexivity |].
  exact Hmain.
Defined.

Lemma scad_env_contains_home_witness :
  split_on ":" (get_scad_env library_host) = ["~/.scad"; "/lib"; "/other"].
Proof.
  destruct (scad_env_contains_home library_host) as (_ & _ & _ & _ & H);
    [discriminate | reflexivity |].
  apply H. reflexivity.
Defined.

Lemma viewall_implies_view_witness :
  supports_flag (detect_flags "  --viewall   adjust camera to fit") "--view" = true.
Proof.
  destruct (viewall_implies_view "  --viewall   adjust camera to fit") as [H _].
  apply H. reflexivity.
Defined.

(** ** The output of [stl] *)

(** [stl] creates the parent directory of the output path and runs one
    render.  A render that ends with a non-zero status exits with that
    status before the output is looked at; after a successful render the
    size of the output is read and reported in the "STL saved" line, and a
    missing output raises. *)
Theorem stl_reports_output (h : Host) (args : Args) (bin : string)
    (supports : list (string * bool)) (rc : Z) :
  path_exists h (expanduser h (input args)) = true ->
  let scad_file := expanduser h (input args) in
  let out_path := stl_out_path h args scad_file in
  let cmd := validate_cmd args bin supports scad_file out_path in
  mkdir_error h (path_parent h out_path) = None ->
  render_status h cmd rc ->
  let result := cmd_stl h args bin supports in
  subprocess_cmds (fst result) = [cmd]
  /\ In (Mkdir (path_parent h out_path)) (fst result)
  /\ snd result
     = (if rc =? 0
        then match stat_size h out_path with
             | inl msg => Raise (OSError msg)
             | inr _ => Ret tt
             end
        else Exit rc)
  /\ printed (fst result)
     = ("+ " ++ join " " (map shlex_quote cmd))
       :: (if rc =? 0
           then match stat_size h out_path with
                | inl _ => []
                | inr size =>
                    ["STL saved: " ++ out_path ++ " (" ++ format_thousands size
                     ++ " bytes)"]
                end
           else []).
Proof.
  intros Hin scad_file out_path cmd Hmk (out & err & Hrun) result.
  assert (Hres : result
            = ((Mkdir (path_parent h out_path)
                :: Print ("+ " ++ join " " (map shlex_quote cmd))
                :: SubprocessRun cmd (Some (get_scad_env h))
                :: (if rc =? 0
                    then match stat_size h out_path with
                         | inl _ => []
                         | inr size =>
                             [Print ("STL saved: " ++ out_path ++ " ("
                                     ++ format_thousands size ++ " bytes)")]
                         end
                    else []))%list,
               if rc =? 0
               then match stat_size h out_path with
                    | inl msg => Raise (OSError msg)
                    | inr _ => Ret tt
                    end
               else Exit rc)).
  { unfold result, cmd_stl, ensure_scad_file, ensure_dir.
    rewrite Hin. cbn [negb]. unfold ret at 1. rewrite bind_ret_eq. cbv beta zeta.
    fold scad_file. fold (stl_out_path h args scad_file). fold out_path.
    rewrite Hmk. unfold run, print, emit, ret. step_binds.
    change (add_defines (bin :: render_flags supports) (define args)
            ++ ["-o"; out_path; scad_file])%list with cmd.
    rewrite Hrun.
    destruct (Z.eqb_spec rc 0) as [->|Hrc]; cbn [negb sys_exit];
      [destruct (stat_size h out_path)|]; step_binds; reflexivity. }
  rewrite Hres. clear Hres. cbn [fst snd].
  split; [destruct (rc =? 0); [destruct (stat_size h out_path)|]; reflexivity|].
  split; [now left|].
  split; [reflexivity|].
  destruct (rc =? 0); [destruct (stat_size h out_path)|]; reflexivity.
Qed.

Lemma stl_reports_output_witness :
  snd (cmd_stl example_host default_args OPENSCAD_BIN []) = Ret tt
  /\ printed (fst (cmd_stl example_host default_args OPENSCAD_BIN []))
     = ["+ " ++ OPENSCAD_BIN ++ " -o '~/.scad/outputs/model.stl' model.scad";
        "STL saved: ~/.scad/outputs/model.stl (1,024 bytes)"].
Proof.
  destruct (stl_reports_output example_host default_args OPENSCAD_BIN [] 0)
    as (_ & _ & Hout & Hprinted);
    [reflexivity | reflexivity | exists "", ""; reflexivity |].
  split; [exact Hout | exact Hprinted].
Defined.

(** ** The help probe *)

(** The help probe never fails and never stops the tool: it starts the
    binary once with [--help] and returns the standard output followed by
    the standard error, whatever the exit status; when the binary cannot be
    started it returns the empty text, for which no flag is detected. *)
Theorem probe_never_fails (h : Host) (bin : string) :
  exists text,
    load_help_text h bin = ([SubprocessRun [bin; "--help"] None], Ret text)
    /\ (forall rc out err,
          subprocess_run h [bin; "--help"] None = Completed rc out err ->
          text = out ++ err)
    /\ (forall msg,
          subprocess_run h [bin; "--help"] None = SpawnError msg ->
          text = ""
          /\ forall flag, supports_flag (detect_flags text) flag = false).
Proof.
  unfold load_help_text.
  destruct (subprocess_run h [bin; "--help"] None) as [rc out err|msg].
  - exists (out ++ err). split; [reflexivity|]. split.
    + intros rc' out' err' H. now inversion H.
    + intros msg H. discriminate.
  - exists "". split; [reflexivity|]. split.
    + intros rc out err H. discriminate.
    + intros msg' _. split; [reflexivity|]. intros flag.
      destruct (supports_flag (detect_flags "") flag) eqn:E; [|reflexivity].
      apply supports_detected in E as [Hin Hs]. cbn [known_flags In] in Hin.
      repeat (destruct Hin as [<-|Hin]; [discriminate|]). contradiction.
Qed.

(** ** Labels of negative values *)

(** Negating a positive finite value puts "m" in front of its label; the
    digits are those of the absolute value. *)
Theorem label_of_negation (v : float) :
  is_finite v = true -> fltb fzero v = true ->
  label_from_value (SFopp v) = "m" ++ label_from_value v.
Proof.
  intros Hfin Hpos.
  destruct v as [s| | |s m e]; try discriminate.
  destruct s; [discriminate|].
  rewrite !label_closed_form by reflexivity. reflexivity.
Qed.

Lemma label_of_negation_witness :
  label_from_value (SFopp (float_of_decimal 1250 2))
  = "m" ++ label_from_value (float_of_decimal 1250 2).
Proof. apply label_of_negation; reflexivity. Defined.
